(** * The report viewer core of viewer.py: a shallow embedding

    The viewer loads one JSON scan document, extracts named collections
    from it ([ensure_list] and the section extraction of the session code),
    turns a collection into a table ([df_from_list_of_dicts]), filters the
    table by a query ([quick_filter_df]) and renders nested archive listings
    with an explicit stack ([display_archive_tree]).

    Python values loaded from JSON are modelled by the inductive type
    [value]; a Python dict is an association list in insertion order, a
    Python list is a list.  Byte strings stand for Python's text: a string
    literal below is the UTF-8 encoding of the literal of the source. *)

From stdpp Require Import gmap.
From Stdlib Require Import String Ascii List ZArith Lia Bool PeanoNat PrimFloat.
From Stdlib Require Import Sorted Permutation DecimalString.
Import ListNotations.
Local Open Scope string_scope.
Local Open Scope list_scope.

(** ** Python values *)

#[local] Unset Elimination Schemes.

Inductive value : Type :=
| VNone
| VBool (b : bool)
| VInt (z : Z)
| VFloat (f : float)
| VStr (s : string)
| VList (l : list value)
| VDict (d : list (string * value)).

#[local] Set Elimination Schemes.

(** Induction on JSON values, with the hypothesis for every item of a list
    and of a dict. *)
Section ValueInduction.
Variable P : value -> Prop.
Hypothesis P_none : P VNone.
Hypothesis P_bool : forall b, P (VBool b).
Hypothesis P_int : forall z, P (VInt z).
Hypothesis P_float : forall f, P (VFloat f).
Hypothesis P_str : forall s, P (VStr s).
Hypothesis P_list : forall l, Forall P l -> P (VList l).
Hypothesis P_dict : forall d, Forall (fun kv => P (snd kv)) d -> P (VDict d).

End ValueInduction.

(** [d.get(k)] on the items of a dict: the value of the first item whose
    key is [k]. *)
Fixpoint dict_lookup {A : Type} (d : list (string * A)) (k : string) : option A :=
  match d with
  | [] => None
  | (k', v) :: d' => if String.eqb k' k then Some v else dict_lookup d' k
  end.

(** the keys of the items of a dict *)
Definition keys {A : Type} (d : list (string * A)) : list string := map fst d.

(** Python's truth value of an object: [bool(x)]. *)
Definition truthy (x : value) : bool :=
  match x with
  | VNone => false
  | VBool b => b
  | VInt z => negb (Z.eqb z 0)
  | VFloat f => negb (PrimFloat.eqb f 0%float)
  | VStr s => negb (String.eqb s "")
  | VList l => negb (Nat.eqb (List.length l) 0)
  | VDict d => negb (Nat.eqb (List.length d) 0)
  end.

(** [d.get(k)] on a dict: a missing key gives Python's None. *)
Definition dict_get (d : list (string * value)) (k : string) : value :=
  match dict_lookup d k with
  | Some v => v
  | None => VNone
  end.

(** [x.get(k)]: only a dict has the method; on any other JSON value the
    attribute lookup raises AttributeError, here [None]. *)
Definition py_get (x : value) (k : string) : option value :=
  match x with
  | VDict d => Some (dict_get d k)
  | _ => None
  end.

(** [x or y] on objects. *)
Definition py_or (x y : value) : value := if truthy x then x else y.

(** [xs or ys] on two lists. *)
Definition list_or {A : Type} (xs ys : list A) : list A :=
  match xs with
  | [] => ys
  | _ :: _ => xs
  end.

(** ** ensure_list (viewer.py, lines 81-86) *)

Definition ensure_list (x : value) : list value :=
  match x with
  | VNone => []
  | VList l => l
  | _ => [x]
  end.

(** ** Section extraction (viewer.py, lines 276-289)

    The collections read from the loaded document [data].  A step that
    raises (a [.get] on a value that is not a dict) makes the whole
    extraction [None]. *)

Record sections : Type := {
  drivers_loaded : list value;
  drivers_dir_files : list value;
  driverquery : list value;
  processes : list value;
  modules : list value;
  process_dir_files : list value;
  browser_downloads : list value;
  downloads_files : list value;
  desktop_files : list value;
  appdata_files : list value;
  deleted_files : list value
}.

Definition bind {A B : Type} (o : option A) (f : A -> option B) : option B :=
  match o with
  | Some a => f a
  | None => None
  end.

Notation "'let?' x ':=' e 'in' k" := (bind e (fun x => k))
  (at level 10, x name, e at level 100, k at level 200).

Definition key_snapshot : string := "Снимок файловой системы".
Definition key_downloads : string := "Файлы из Загрузок".
Definition key_desktop : string := "Файлы рабочего стола".
Definition key_appdata : string := "Файлы из AppData".
Definition key_deleted : string := "Удаленные файлы (Корзина)".

Definition extract_sections (data : value) : option sections :=
  let? v_drivers_loaded := py_get data "Загруженные драйверы" in
  let? v_drivers_dir_files := py_get data "Файлы папки драйверов" in
  let? v_driverquery := py_get data "Службы драйверов" in
  let? v_processes := py_get data "Процессы" in
  let? v_modules := py_get data "Модули" in
  let? v_process_dir_files := py_get data "Файлы папки процесса" in
  let? v_browser_downloads := py_get data "История браузеров" in
  let? v_snapshot := py_get data key_snapshot in
  let file_snapshot := py_or v_snapshot (VDict []) in
  let? v_downloads := py_get file_snapshot key_downloads in
  let? v_desktop := py_get file_snapshot key_desktop in
  let? v_appdata_nested := py_get file_snapshot key_appdata in
  let? v_appdata_root := py_get data key_appdata in
  let? v_deleted_nested := py_get file_snapshot key_deleted in
  let? v_deleted_root := py_get data key_deleted in
  Some {|
    drivers_loaded := ensure_list v_drivers_loaded;
    drivers_dir_files := ensure_list v_drivers_dir_files;
    driverquery := ensure_list v_driverquery;
    processes := ensure_list v_processes;
    modules := ensure_list v_modules;
    process_dir_files := ensure_list v_process_dir_files;
    browser_downloads := ensure_list v_browser_downloads;
    downloads_files := ensure_list v_downloads;
    desktop_files := ensure_list v_desktop;
    appdata_files := list_or (ensure_list v_appdata_nested) (ensure_list v_appdata_root);
    deleted_files := list_or (ensure_list v_deleted_nested) (ensure_list v_deleted_root)
  |}.

(** ** The archive tree renderer (viewer.py, lines 107-140)

    The renderer only looks at its input through a few operations of
    Python's data model: whether an object is a list (and its items),
    whether it is a dict (and its items), its truth value and whether it is
    None.  The class below collects them, so that the loop is written once
    and runs both on JSON trees and on a store of objects that refer to
    each other. *)

Class PyData (obj : Type) : Type := {
  (** [isinstance(x, list)]: the items of the list. *)
  list_items : obj -> option (list obj);
  (** the items of a dict, in order; [None] for an object without
      [.get] and [.items]. *)
  dict_items : obj -> option (list (string * obj));
  (** [bool(x)] *)
  is_true : obj -> bool;
  (** [x is None] *)
  is_None : obj -> bool
}.

#[export] Instance value_PyData : PyData value := {
  list_items x := match x with VList l => Some l | _ => None end;
  dict_items x := match x with VDict d => Some d | _ => None end;
  is_true := truthy;
  is_None x := match x with VNone => true | _ => false end
}.

(** What the renderer sends to the page. *)

Record header (obj : Type) : Type := {
  header_indent : string;
  header_icon : string;
  (** the object formatted as the name, or the literal of the source *)
  header_name : obj + string;
  (** the object formatted after the dash, when there is one *)
  header_size : option obj
}.

Arguments header_indent {obj} _.
Arguments header_icon {obj} _.
Arguments header_name {obj} _.
Arguments header_size {obj} _.

Inductive st_call (obj : Type) : Type :=
| st_warning (msg : string)
| st_write (msg : string)
| st_expander (h : header obj) (json : option (list (string * obj))).

Arguments st_warning {obj} msg.
Arguments st_write {obj} msg.
Arguments st_expander {obj} h json.

(** How a run ends: the function returns, an exception leaves it (the
    calls made before it stay on the page), or the iterations allowed by
    the fuel are used up. *)
Inductive outcome (obj : Type) : Type :=
| Returned (ui : list (st_call obj))
| Raised (ui : list (st_call obj))
| OutOfFuel.

Arguments Returned {obj} ui.
Arguments Raised {obj} ui.
Arguments OutOfFuel {obj}.

Fixpoint str_repeat (s : string) (n : nat) : string :=
  match n with
  | 0 => ""
  | S n' => s ++ str_repeat s n'
  end.

(** [stack.pop()]: the last item of a Python list, and the list without it. *)
Definition pop {A : Type} (stack : list A) : option (list A * A) :=
  match rev stack with
  | [] => None
  | x :: r => Some (rev r, x)
  end.

Definition key_nested : string := "Вложенное".
Definition key_archive_name : string := "Имя в архиве".
Definition key_name : string := "Имя".
Definition key_is_dir : string := "Это папка".

Section Renderer.
Context {obj : Type} `{PyData obj}.

(** [name = e.get(k1) or e.get(k2) or "<unknown>"] *)
Definition entry_name (d : list (string * obj)) : obj + string :=
  match dict_lookup d key_archive_name with
  | Some x => if is_true x then inl x else
      match dict_lookup d key_name with
      | Some y => if is_true y then inl y else inr "<unknown>"
      | None => inr "<unknown>"
      end
  | None =>
      match dict_lookup d key_name with
      | Some y => if is_true y then inl y else inr "<unknown>"
      | None => inr "<unknown>"
      end
  end.

(** [e.get("Это папка", False)], as the condition of the icon *)
Definition entry_is_dir (d : list (string * obj)) : bool :=
  match dict_lookup d key_is_dir with
  | Some x => is_true x
  | None => false
  end.

(** [size = e.get("size")], kept when [size is not None] *)
Definition entry_size (d : list (string * obj)) : option obj :=
  match dict_lookup d "size" with
  | Some x => if is_None x then None else Some x
  | None => None
  end.

Definition entry_header (d : list (string * obj)) (level : nat) : header obj :=
  {| header_indent := str_repeat " " (level * 4);
     header_icon := if entry_is_dir d then "📁" else "📄";
     header_name := entry_name d;
     header_size := entry_size d |}.

(** [{k: v for k, v in e.items() if k not in (...)}], shown by
    [st.json] when it is not empty *)
Definition entry_meta (d : list (string * obj)) : option (list (string * obj)) :=
  match filter (fun kv => negb (String.eqb (fst kv) key_nested
                                || String.eqb (fst kv) key_archive_name
                                || String.eqb (fst kv) key_name)) d with
  | [] => None
  | m => Some m
  end.

(** the entries pushed for [e]: the items of [e.get("Вложенное")] when
    that is a list and not empty *)
Definition entry_nested (d : list (string * obj)) : list obj :=
  match dict_lookup d key_nested with
  | Some x => match list_items x with Some l => l | None => [] end
  | None => []
  end.

Definition render_entry (d : list (string * obj)) (level : nat) : st_call obj :=
  st_expander (entry_header d level) (entry_meta d).

(** The [while stack:] loop; [fuel] bounds the number of iterations. *)
Fixpoint archive_loop (fuel : nat) (stack : list (obj * nat)) (ui : list (st_call obj))
  : outcome obj :=
  match pop stack with
  | None => Returned ui
  | Some (stack', (current_entry, level)) =>
      match fuel with
      | 0 => OutOfFuel
      | S fuel' =>
          match dict_items current_entry with
          | None => Raised ui
          | Some d =>
              archive_loop fuel'
                (stack' ++ map (fun nested_entry => (nested_entry, level + 1))
                               (rev (entry_nested d)))
                (ui ++ [render_entry d level])
          end
      end
  end.

Definition display_archive_tree (fuel : nat) (entries : obj) : outcome obj :=
  match list_items entries with
  | None => Returned [st_warning "Файл не является архивом."]
  | Some [] => Returned [st_write "Нет Содержимого"]
  | Some es => archive_loop fuel (map (fun entry => (entry, 0)) (rev es)) []
  end.

End Renderer.

(** *** The renderer on JSON trees: what it should visit

    The entries of a listing in pre-order, each with its depth: an entry,
    then the pre-order of the items of its [key_nested] list, one level
    deeper.  The inner fixpoints follow [dict_lookup] on the items of the
    dict and the items of the list it finds. *)

Fixpoint preorder (level : nat) (e : value) {struct e} : list (value * nat) :=
  (e, level) ::
  match e with
  | VDict d =>
      (fix in_items (d : list (string * value)) : list (value * nat) :=
         match d with
         | [] => []
         | (k, x) :: d' =>
             if String.eqb k key_nested then
               match x with
               | VList l =>
                   (fix in_list (l : list value) : list (value * nat) :=
                      match l with
                      | [] => []
                      | c :: l' => preorder (level + 1) c ++ in_list l'
                      end) l
               | _ => []
               end
             else in_items d'
         end) d
  | _ => []
  end.

Definition preorder_forest (level : nat) (es : list value) : list (value * nat) :=
  flat_map (preorder level) es.

(** The visits that a list of pending entries (next one first) stands for. *)
Definition expand (todo : list (value * nat)) : list (value * nat) :=
  flat_map (fun p => preorder (snd p) (fst p)) todo.


(** The calls made for a sequence of visits, up to the first entry that is
    not a dict, where [.get] raises. *)
Fixpoint render_visits {obj : Type} `{PyData obj} (visits : list (obj * nat))
    (ui : list (st_call obj)) : outcome obj :=
  match visits with
  | [] => Returned ui
  | (e, level) :: rest =>
      match dict_items e with
      | None => Raised ui
      | Some d => render_visits rest (ui ++ [render_entry d level])
      end
  end.


(** The entries the loop pushes when it pops [e]. *)
Definition pushed {obj : Type} `{PyData obj} (e : obj) : list obj :=
  match dict_items e with
  | Some d => entry_nested d
  | None => []
  end.

(** *** The renderer on objects that refer to each other

    A JSON document is a tree.  Python objects in general are references:
    a list or a dict can be reachable from itself.  A store maps locations
    to lists and dicts whose items are immediate values or references. *)






(** ** Tables

    A pandas DataFrame, column by column: the row labels and, for each
    column, its label and its cells (one per row label). *)

Record DataFrame (cell : Type) : Type := {
  df_index : list nat;
  df_columns : list (string * list cell)
}.

Arguments df_index {cell} _.
Arguments df_columns {cell} _.

(** Every column has one cell per row label. *)
Definition df_wf {cell : Type} (df : DataFrame cell) : Prop :=
  Forall (fun col => List.length (snd col) = List.length (df_index df)) (df_columns df).

(** [pd.DataFrame()] *)
Definition DataFrame_empty {cell : Type} : DataFrame cell :=
  {| df_index := []; df_columns := [] |}.

(** [pd.DataFrame(columns=cols)] *)
Definition DataFrame_columns {cell : Type} (cols : list string) : DataFrame cell :=
  {| df_index := []; df_columns := map (fun c => (c, [])) cols |}.

(** [len(df)] *)
Definition df_len {cell : Type} (df : DataFrame cell) : nat := List.length (df_index df).

(** [df.empty]: one of the two axes has length 0. *)
Definition df_empty {cell : Type} (df : DataFrame cell) : bool :=
  Nat.eqb (List.length (df_index df)) 0 || Nat.eqb (List.length (df_columns df)) 0.

Definition column_labels {cell : Type} (df : DataFrame cell) : list string :=
  map fst (df_columns df).

(** The rows of a frame, first to last: the label of a row with its cell
    in every column, taken off the front of the columns. *)
Fixpoint rows_of {cell : Type} (labels : list nat) (cols : list (list cell))
  : list (nat * list (option cell)) :=
  match labels with
  | [] => []
  | i :: labels' => (i, map (@hd_error cell) cols) :: rows_of labels' (map (@tl cell) cols)
  end.

Definition df_rows {cell : Type} (df : DataFrame cell) : list (nat * list (option cell)) :=
  rows_of (df_index df) (map snd (df_columns df)).

(** *** pandas.json_normalize with its default arguments

    This is the library's code path for a list of records and no
    [record_path], [meta] or [max_level] (pandas/io/json/_normalize.py:
    [_simple_json_normalize], [_normalise_json_ordered], [_normalise_json]),
    followed by the frame constructor on a list of dicts, which takes the
    keys in the order it first sees them and leaves a cell missing where a
    record has no such key.  Cells are [option value]: [None] is a missing
    cell.  The conversion of a column to one numeric type is not modelled;
    no statement below depends on it. *)

(** [d[k] = v] on the items of a dict *)
Fixpoint dict_set {A : Type} (d : list (string * A)) (k : string) (v : A) : list (string * A) :=
  match d with
  | [] => [(k, v)]
  | (k', v') :: d' => if String.eqb k' k then (k, v) :: d' else (k', v') :: dict_set d' k v
  end.

(** [{**d1, **d2}] *)
Definition dict_update {A : Type} (d1 d2 : list (string * A)) : list (string * A) :=
  fold_left (fun acc kv => dict_set acc (fst kv) (snd kv)) d2 d1.

Definition is_dict (v : value) : bool :=
  match v with
  | VDict _ => true
  | _ => false
  end.

(** The key of a nested item: [f"{key_string}{separator}{key}"], without
    the leading separator when [key_string] is empty. *)
Definition new_key (key_string key : string) : string :=
  if String.eqb key_string "" then key else key_string ++ "." ++ key.

Fixpoint normalise_json (data : value) (key_string : string)
    (normalized_dict : list (string * value)) {struct data} : list (string * value) :=
  match data with
  | VDict d =>
      (fix items (d : list (string * value)) (acc : list (string * value)) :=
         match d with
         | [] => acc
         | (key, v) :: d' => items d' (normalise_json v (new_key key_string key) acc)
         end) d normalized_dict
  | _ => dict_set normalized_dict key_string data
  end.

Definition normalise_json_ordered (d : list (string * value)) : list (string * value) :=
  let top_dict := filter (fun kv => negb (is_dict (snd kv))) d in
  let nested_dict := normalise_json (VDict (filter (fun kv => is_dict (snd kv)) d)) "" [] in
  dict_update top_dict nested_dict.

(** One row of [_simple_json_normalize]: a dict is flattened, a value that
    is neither a dict nor a list gives the empty dict.  A row that is
    itself a list gives a list of rows, and the frame constructor then
    labels columns by position: that case is outside this model, [None]. *)
Definition simple_json_normalize_row (row : value) : option (list (string * value)) :=
  match row with
  | VDict d => Some (normalise_json_ordered d)
  | VList _ => None
  | _ => Some []
  end.

Definition is_list (v : value) : bool :=
  match v with
  | VList _ => true
  | _ => false
  end.

(** The dict that [_simple_json_normalize] makes of a row that is not a
    list. *)
Definition row_record (row : value) : list (string * value) :=
  match row with
  | VDict d => normalise_json_ordered d
  | _ => []
  end.

Fixpoint simple_json_normalize (ds : list value) : option (list (list (string * value))) :=
  match ds with
  | [] => Some []
  | row :: ds' =>
      let? r := simple_json_normalize_row row in
      let? rs := simple_json_normalize ds' in
      Some (r :: rs)
  end.

(** The keys of the records in the order of their first occurrence. *)
Definition add_keys {A : Type} (seen : list string) (d : list (string * A)) : list string :=
  fold_left (fun acc kv => if existsb (String.eqb (fst kv)) acc then acc else acc ++ [fst kv])
            d seen.

Definition first_seen_keys {A : Type} (records : list (list (string * A))) : list string :=
  fold_left add_keys records [].

(** [pd.DataFrame(records)] on a list of dicts *)
Definition DataFrame_of_records (records : list (list (string * value)))
  : DataFrame (option value) :=
  {| df_index := seq 0 (List.length records);
     df_columns := map (fun k => (k, map (fun d => dict_lookup d k) records))
                       (first_seen_keys records) |}.

Definition json_normalize (data : list value) : option (DataFrame (option value)) :=
  match data with
  | [] => Some DataFrame_empty
  | _ :: _ =>
      let? records := simple_json_normalize data in
      Some (DataFrame_of_records records)
  end.

(** ** df_from_list_of_dicts (viewer.py, lines 88-93)

    [default_columns] is [None] when the caller gives none. *)

Definition df_from_list_of_dicts (items : list value) (default_columns : option (list string))
  : option (DataFrame (option value)) :=
  match items with
  | [] =>
      match default_columns with
      | Some (c :: cs) => Some (DataFrame_columns (c :: cs))
      | _ => Some DataFrame_empty
      end
  | _ :: _ => json_normalize items
  end.



(** ** quick_filter_df (viewer.py, lines 95-105)

    The filter reads the cells through three operations of pandas and
    Python, collected in a class:
    - [astype_str]: the text [df[col].astype(str)] gives for a cell, [None]
      when the cell stays a missing value (which [na=False] turns into no
      match);
    - [str_lower]: [str.lower], used for the query and for the cells;
    - [str_contains q]: the test [Series.str.contains(q, na=False)] applies
      to each text, [None] when the call raises (the query is read as a
      regular expression, and may fail to compile). *)

Class TextOps (cell : Type) : Type := {
  astype_str : cell -> option string;
  str_lower : string -> string;
  str_contains : string -> option (string -> bool)
}.

(** [a | b] on two boolean series over the same rows *)
Definition mask_or (a b : list bool) : list bool :=
  map (fun p => orb (fst p) (snd p)) (combine a b).

(** the items of [l] at the positions where [mask] is true *)
Fixpoint select_by {A : Type} (mask : list bool) (l : list A) : list A :=
  match mask, l with
  | b :: mask', x :: l' => if b then x :: select_by mask' l' else select_by mask' l'
  | _, _ => []
  end.

(** [df[mask]] *)
Definition df_select {cell : Type} (mask : list bool) (df : DataFrame cell) : DataFrame cell :=
  {| df_index := select_by mask (df_index df);
     df_columns := map (fun col => (fst col, select_by mask (snd col))) (df_columns df) |}.

(** [df[col]] as a series: the cells of the column with this label.  When
    several columns carry the label, [df[col]] is a frame, which has no
    [.str]: the attribute lookup raises, here [None]. *)
Definition df_getitem {cell : Type} (df : DataFrame cell) (col : string) : option (list cell) :=
  match filter (fun c => String.eqb (fst c) col) (df_columns df) with
  | [c] => Some (snd c)
  | _ => None
  end.

Section QuickFilter.
Context {cell : Type} `{TextOps cell}.

(** the test of one cell *)
Definition cell_matches (m : string -> bool) (c : cell) : bool :=
  match astype_str c with
  | Some s => m (str_lower s)
  | None => false
  end.

(** [df[col].astype(str).str.lower().str.contains(q, na=False)];
    [None] when the expression raises *)
Definition column_matches (df : DataFrame cell) (q : string) (col : string)
  : option (list bool) :=
  let? cells := df_getitem df col in
  let? m := str_contains q in
  Some (map (cell_matches m) cells).

(** the [for col in df.columns] loop *)
Fixpoint mask_loop (df : DataFrame cell) (q : string) (cols : list string)
    (mask : list bool) : list bool :=
  match cols with
  | [] => mask
  | col :: cols' =>
      match column_matches df q col with
      | Some s => mask_loop df q cols' (mask_or mask s)
      | None => mask_loop df q cols' mask
      end
  end.

(** the final [mask] for the folded query [q] *)
Definition filter_mask (df : DataFrame cell) (q : string) : list bool :=
  mask_loop df q (column_labels df) (repeat false (List.length (df_index df))).

(** the test of row [i] in the columns [cols] *)
Definition row_matches (df : DataFrame cell) (q : string) (cols : list string) (i : nat)
  : bool :=
  existsb (fun col => match column_matches df q col with
                      | Some s => nth i s false
                      | None => false
                      end) cols.

Definition quick_filter_df (df : DataFrame cell) (q : string) : DataFrame cell :=
  if String.eqb q "" || df_empty df then df
  else df_select (filter_mask df (str_lower q)) df.

End QuickFilter.

(** *** Text operations on plain text cells

    A concrete instance for frames whose cells are all Python strings of
    ASCII characters: a string is its own text, lowering maps A-Z to a-z,
    and the query is a regular expression of the fragment built from
    ordinary characters, [.] and [|]. *)

Definition ascii_lower (c : ascii) : ascii :=
  let n := nat_of_ascii c in
  if Nat.leb 65 n && Nat.leb n 90 then ascii_of_nat (n + 32) else c.

Fixpoint lower (s : string) : string :=
  match s with
  | EmptyString => EmptyString
  | String c s' => String (ascii_lower c) (lower s')
  end.

(** [q in s] on strings *)
Fixpoint is_substring (q s : string) : bool :=
  String.prefix q s ||
  match s with
  | EmptyString => false
  | String _ s' => is_substring q s'
  end.

(** the characters with a meaning of their own in a pattern of [re] *)
Definition re_special (c : ascii) : bool :=
  existsb (Ascii.eqb c) (list_ascii_of_string ".^$*+?{}[]\|()").

(** a query every character of which stands for itself in a pattern *)
Definition re_literal (q : string) : bool :=
  forallb (fun c => negb (re_special c)) (list_ascii_of_string q).

Inductive atom : Type :=
| Lit (c : ascii)
| AnyChar.

Definition cons_first {A : Type} (a : A) (alts : list (list A)) : list (list A) :=
  match alts with
  | [] => [[a]]
  | alt :: alts' => (a :: alt) :: alts'
  end.

(** A pattern of the fragment as its alternatives.  [None] for a pattern
    with another special character: [re] rejects some of these (an
    unbalanced parenthesis, a leading star) and gives the others a meaning
    this fragment does not cover; the statements below use [re_compile]
    inside the fragment only. *)
Fixpoint re_compile (pat : string) : option (list (list atom)) :=
  match pat with
  | EmptyString => Some [[]]
  | String c rest =>
      let? alts := re_compile rest in
      if Ascii.eqb c "|" then Some ([] :: alts)
      else if Ascii.eqb c "." then Some (cons_first AnyChar alts)
      else if re_special c then None
      else Some (cons_first (Lit c) alts)
  end.

Definition atom_matches (a : atom) (c : ascii) : bool :=
  match a with
  | Lit c' => Ascii.eqb c' c
  | AnyChar => negb (Ascii.eqb c "010")
  end.

Fixpoint match_here (atoms : list atom) (s : string) : bool :=
  match atoms with
  | [] => true
  | a :: atoms' =>
      match s with
      | EmptyString => false
      | String c s' => atom_matches a c && match_here atoms' s'
      end
  end.

Fixpoint search_alt (atoms : list atom) (s : string) : bool :=
  match_here atoms s ||
  match s with
  | EmptyString => false
  | String _ s' => search_alt atoms s'
  end.

(** [re.search(pat, s) is not None] for a compiled pattern *)
Definition re_search (alts : list (list atom)) (s : string) : bool :=
  existsb (fun alt => search_alt alt s) alts.

Definition re_contains (pat : string) : option (string -> bool) :=
  let? alts := re_compile pat in
  Some (re_search alts).

#[export] Instance text_cells : TextOps string := {
  astype_str s := Some s;
  str_lower := lower;
  str_contains := re_contains
}.

(** Some frames and documents used below. *)

Definition frame_x : DataFrame string :=
  {| df_index := [0]; df_columns := [("a", ["x"])] |}.

Definition frame_ab : DataFrame string :=
  {| df_index := [0; 1]; df_columns := [("a", ["alpha"; "b"]); ("n", ["1"; "2"])] |}.

Definition entry_A1 : value := VDict [(key_name, VStr "A1"); ("size", VInt 3)].
Definition entry_A2 : value := VDict [(key_name, VStr "A2")].
Definition entry_A : value :=
  VDict [(key_name, VStr "A"); (key_is_dir, VBool true);
         (key_nested, VList [entry_A1; entry_A2])].
Definition entry_B : value := VDict [(key_archive_name, VStr "B")].

(** A document with a downloads list at its root and no snapshot. *)
Definition doc_root_downloads : value :=
  VDict [(key_downloads, VList [VDict [(key_name, VStr "a.zip")]])].

(** A document with a temporary-files list at its root and an empty one
    in its snapshot. *)
Definition doc_root_appdata : value :=
  VDict [(key_snapshot, VDict [(key_appdata, VList [])]);
         (key_appdata, VList [VDict [(key_name, VStr "t.tmp")]])].

(** ** list_user_scans (viewer.py, lines 32-53)

    The bucket is seen through what [ls] yields: the file versions, in the
    order of the listing, and whether the iteration ends or raises after
    them.  [None] is the bucket that could not be opened.  The function
    returns the list of file descriptions and whether it reported an error
    with [st.error]. *)

Record file_version : Type := {
  fv_file_name : string;
  fv_id : string;
  fv_upload_timestamp : Z;
  fv_size : Z
}.

Record ls_result : Type := {
  ls_items : list file_version;
  ls_raises : bool
}.

(** the dict appended to [all_files] *)
Record scan_file : Type := {
  file_name : string;
  file_id : string;
  upload_timestamp : Z;
  file_size : Z
}.

(** [s.endswith(suffix)] *)
Fixpoint ends_with (s suffix : string) : bool :=
  String.eqb s suffix ||
  match s with
  | EmptyString => false
  | String _ s' => ends_with s' suffix
  end.

(** [f"_{username}.json"] *)
Definition user_suffix (username : string) : string :=
  "_" ++ username ++ ".json".

Definition describe (v : file_version) : scan_file :=
  {| file_name := fv_file_name v;
     file_id := fv_id v;
     upload_timestamp := fv_upload_timestamp v;
     file_size := fv_size v |}.

(** the [for] loop over the listing *)
Definition matching_files (username : string) (items : list file_version) : list scan_file :=
  map describe (filter (fun v => ends_with (fv_file_name v) (user_suffix username)) items).

(** [all_files.sort(key=lambda x: x["upload_timestamp"], reverse=True)].
    Python's sort is stable, also with [reverse=True]: files with equal
    keys keep their order.  A stable sort has one possible result, given
    here by insertion: a file goes before the first file whose timestamp
    is not greater than its own. *)
Fixpoint insert_desc (x : scan_file) (l : list scan_file) : list scan_file :=
  match l with
  | [] => [x]
  | y :: l' =>
      if Z.leb (upload_timestamp y) (upload_timestamp x) then x :: y :: l'
      else y :: insert_desc x l'
  end.

Fixpoint sort_desc (l : list scan_file) : list scan_file :=
  match l with
  | [] => []
  | x :: l' => insert_desc x (sort_desc l')
  end.

(** [a] may stand before [b] in a list ordered newest first *)
Definition newer_first (a b : scan_file) : Prop :=
  (upload_timestamp b <= upload_timestamp a)%Z.

Definition list_user_scans (bucket : option ls_result) (username : string)
  : list scan_file * bool :=
  match bucket with
  | None => ([], false)
  | Some listing =>
      let all_files := matching_files username (ls_items listing) in
      if ls_raises listing then (all_files, true)
      else (sort_desc all_files, false)
  end.

(** ** format_size (viewer.py, lines 150-161)

    The argument is None or an integer (the [size] of a listed file).
    [float(size_bytes)] is exact for an integer below [2^53] in absolute
    value, and so is every division by [1024.0], a power of two: the
    float is [n / 1024^k] for the integer [n] given and the number [k] of
    divisions made, and the model keeps [n] and [k].  [f"{x:.2f}"] is the
    decimal of two places nearest to the exact value, a tie going to the
    even digit.  The statements below are for integers in this range. *)

Definition size_units : list string := ["B"; "KB"; "MB"; "GB"].

(** the [for unit in ...] loop, then the return after it *)
Fixpoint format_size_loop (units : list string) (n : Z) (k : nat) : Z * nat * string :=
  match units with
  | [] => (n, k, "TB")
  | unit :: units' =>
      if Z.ltb n (1024 * 1024 ^ Z.of_nat k) then (n, k, unit)
      else format_size_loop units' n (S k)
  end.

(** [n / 1024^k] in hundredths, rounded to the nearest, ties to even *)
Definition round_hundredths (n : Z) (k : nat) : Z :=
  let d := (1024 ^ Z.of_nat k)%Z in
  let a := (Z.abs n * 100)%Z in
  let q := (a / d)%Z in
  let r := (a mod d)%Z in
  if Z.ltb d (2 * r) then (q + 1)%Z
  else if Z.eqb d (2 * r) then (if Z.even q then q else (q + 1)%Z)
  else q.

Definition decimal (z : Z) : string :=
  NilZero.string_of_uint (N.to_uint (Z.to_N z)).

Definition two_digits (z : Z) : string :=
  (decimal (z / 10) ++ decimal (z mod 10))%string.

(** [f"{x:.2f}"] for [x = n / 1024^k] *)
Definition format_2f (n : Z) (k : nat) : string :=
  let h := round_hundredths n k in
  ((if Z.ltb n 0 then "-" else "")
   ++ decimal (h / 100) ++ "." ++ two_digits (h mod 100))%string.

Definition format_size (size_bytes : option Z) : string :=
  match size_bytes with
  | None => ""
  | Some n =>
      let '(n', k, unit) := format_size_loop size_units n 0 in
      (format_2f n' k ++ " " ++ unit)%string
  end.

(** ** The archive part of a row's details

    A row of a table is turned back into a dict and its archive listing,
    if any, is rendered (viewer.py, lines 404-407, 451-454 and 468-471 for
    the downloads, temporary files and deleted files; lines 425-436 for
    the desktop).  The result is what is shown: the heading with the
    outcome of [display_archive_tree], the caller's own warning, or
    nothing. *)

Definition key_archive_contents : string := "Содержание архива".

(** [if archive_contents: st.markdown(heading); display_archive_tree(...)] *)
Definition show_archive_if_any (heading : string) (fuel : nat)
    (file_rec : list (string * value)) : option (string * outcome value) :=
  let archive_contents := dict_get file_rec key_archive_contents in
  if truthy archive_contents
  then Some (heading, display_archive_tree fuel archive_contents)
  else None.

(** the [is_nan] test of the desktop section: None, a NaN float, or a list
    or dict of length 0 *)
Definition is_nan (archive_contents : value) : bool :=
  match archive_contents with
  | VNone => true
  | VFloat f => PrimFloat.is_nan f
  | VList l => Nat.eqb (List.length l) 0
  | VDict d => Nat.eqb (List.length d) 0
  | _ => false
  end.

Inductive desktop_view : Type :=
| desktop_tree (heading : string) (o : outcome value)
| desktop_warning (msg : string).

Definition show_desktop_archive (fuel : nat) (file_rec : list (string * value))
  : desktop_view :=
  let archive_contents := dict_get file_rec key_archive_contents in
  if negb (is_nan archive_contents)
  then desktop_tree "**Содержимое Архива:**" (display_archive_tree fuel archive_contents)
  else desktop_warning "Файл не является архивом.".

Definition is_expander {obj : Type} (call : st_call obj) : Prop :=
  match call with
  | st_expander _ _ => True
  | _ => False
  end.

(** ** The details of a row (viewer.py, lines 355-357, 388-389, 401-402)

    [filtered.reset_index(drop=True).iloc[idx].to_dict()]: the row at
    position [idx] as a dict from column label to value.  A missing cell
    is the float NaN.  [None] is the IndexError of a position past the
    last row.  A number comes back as the column holds it (an integer of
    a column with a missing cell as the float of the same value): the
    model gives the number of the record, and the statements on the
    values of a row are about missing cells, texts and lists only. *)

Definition cell_value (c : option value) : value :=
  match c with
  | Some v => v
  | None => VFloat nan
  end.

Definition join_cell (c : option (option value)) : option value :=
  match c with
  | Some c' => c'
  | None => None
  end.

Definition row_to_dict (filtered : DataFrame (option value)) (idx : nat)
  : option (list (string * value)) :=
  match nth_error (df_rows filtered) idx with
  | None => None
  | Some (_, cells) =>
      Some (dict_update []
              (combine (column_labels filtered)
                       (map (fun c => cell_value (join_cell c)) cells)))
  end.

(** [max_value=max(0, len(filtered) - 1)] of the row number input *)
Definition max_row_number {cell : Type} (filtered : DataFrame cell) : nat :=
  Nat.max 0 (df_len filtered - 1).

(** ** The table of modules (viewer.py, line 476):
    [df_from_list_of_dicts([{"Путь": m} for m in modules])] *)


(** ** The session (viewer.py, lines 175-182, 184-198, 212-220 and 244-273)

    Streamlit runs the script again on every interaction; what lasts
    between two runs is [st.session_state].  A run is given by what the
    widgets return in it: the value of the sidebar radio, the input of the
    search form if it was submitted, the files that [list_user_scans]
    returns, the position chosen in the select box ([None]: the box
    stands where the script puts it), whether the button was clicked and
    what the download then returned.  [format_timestamp] goes through the
    local time of the machine: it is a parameter, [fmt]. *)

Record session : Type := {
  username : string;
  selected_file : option string;
  scan_data : option value;
  current_section : string
}.

(** lines 175-182 *)
Definition init_session : session :=
  {| username := ""; selected_file := None; scan_data := None;
     current_section := "📊 Информация" |}.

(** [if st.session_state.scan_data] *)
Definition has_scan (s : session) : bool :=
  match scan_data s with
  | Some data => truthy data
  | None => false
  end.

(** line 198 *)
Definition show_setup (s : session) : bool :=
  negb (has_scan s) || String.eqb (current_section s) "📊 Информация".

(** [l.index(x)]: the first position of [x]; [None] is ValueError *)
Fixpoint index_of (x : string) (l : list string) : option nat :=
  match l with
  | [] => None
  | y :: l' => if String.eqb y x then Some 0 else option_map S (index_of x l')
  end.

(** lines 244-261: the file that the position of the select box stands
    for; [None] when an index is out of range *)
Definition selected_real (fmt : Z -> string) (files : list scan_file) (pos : nat)
  : option string :=
  let file_options_display := map (fun f => fmt (upload_timestamp f)) files in
  let file_options_real := map file_name files in
  let? selected_display := nth_error file_options_display pos in
  let? selected_idx := index_of selected_display file_options_display in
  nth_error file_options_real selected_idx.

(** lines 247-252: where the select box starts *)
Definition current_index (files : list scan_file) (s : session) : nat :=
  match selected_file s with
  | Some name =>
      if String.eqb name "" then 0
      else match index_of name (map file_name files) with
           | Some i => i
           | None => 0
           end
  | None => 0
  end.

Record script_run : Type := {
  radio : string;
  submitted : option string;
  user_files : list scan_file;
  choice : option nat;
  clicked : bool;
  download : option value
}.

(** lines 212-220 *)
Definition on_submit (username_input : string) (s : session) : session :=
  if String.eqb username_input (username s) then s
  else {| username := username_input; selected_file := None; scan_data := None;
          current_section := current_section s |}.

(** lines 263-273 *)
Definition on_view_files (fmt : Z -> string) (files : list scan_file) (pos : nat)
    (click : bool) (data : option value) (s : session) : session :=
  match selected_real fmt files pos with
  | None => s
  | Some real =>
      let s1 :=
        match selected_file s with
        | Some name =>
            if String.eqb real name then s
            else {| username := username s; selected_file := Some real;
                    scan_data := None; current_section := current_section s |}
        | None =>
            {| username := username s; selected_file := Some real;
               scan_data := None; current_section := current_section s |}
        end in
      if click then
        match data with
        | Some d =>
            if truthy d
            then {| username := username s1; selected_file := selected_file s1;
                    scan_data := Some d; current_section := current_section s1 |}
            else s1
        | None => s1
        end
      else s1
  end.

(** lines 184-196: with a document, the section is what the radio says *)
Definition read_radio (section : string) (s : session) : session :=
  if has_scan s
  then {| username := username s; selected_file := selected_file s;
          scan_data := scan_data s; current_section := section |}
  else s.

(** one run of the script: a submitted form ends the run with
    [st.rerun()]; otherwise the list of files is shown, for a user name
    that is not empty, and the select box is read when there are files *)
Definition run (fmt : Z -> string) (s : session) (r : script_run) : session :=
  let s0 := read_radio (radio r) s in
  if show_setup s0 then
    match submitted r with
    | Some username_input => on_submit username_input s0
    | None =>
        if String.eqb (username s0) "" then s0
        else if Nat.eqb (List.length (user_files r)) 0 then s0
        else
          let pos := match choice r with
                     | Some p => p
                     | None => current_index (user_files r) s0
                     end in
          on_view_files fmt (user_files r) pos (clicked r) (download r) s0
    end
  else s0.

(** what holds of every session: a document is held only together with a
    user and a selected file, and it is a true value *)
Definition session_ok (s : session) : Prop :=
  forall data, scan_data s = Some data ->
    truthy data = true /\ selected_file s <> None /\ username s <> "".

(** ** The rows of the drivers table (viewer.py, lines 321-347)

    Three collections are merged into one list of records, with the
    fields that name a driver put first.  [os.path.basename] depends on
    the platform: it is a parameter.  [None] is an exception: [.get] on an
    entry that is not a dict, or [basename] on a path that is not a
    string. *)

(** [{k: v for k, v in d.items() if k not in ks}] *)
Definition without_keys (ks : list string) (d : list (string * value))
  : list (string * value) :=
  filter (fun kv => negb (existsb (String.eqb (fst kv)) ks)) d.

Definition driver_keys : list string := ["Имя"; "Путь"; "MD5"].

Definition service_keys : list string :=
  ["Имя службы"; "Отображаемое имя"; "Состояние"; "Путь к файлу"; "MD5"].

Section Drivers.
Variable basename : string -> string.

(** lines 323-329 *)
Definition loaded_driver_row (d : value) : option (list (string * value)) :=
  match d with
  | VDict items =>
      let? name :=
        if truthy (dict_get items "Имя") then Some (dict_get items "Имя")
        else match py_or (dict_get items "Путь") (VStr "") with
             | VStr path => Some (VStr (basename path))
             | _ => None
             end in
      Some (dict_update [("Имя", name);
                         ("Путь", dict_get items "Путь");
                         ("MD5", dict_get items "MD5")]
                        (without_keys driver_keys items))
  | _ => None
  end.

(** lines 330-336 *)
Definition driver_file_row (d : value) : option (list (string * value)) :=
  match d with
  | VDict items =>
      Some (dict_update [("Имя", dict_get items "Имя");
                         ("Путь", dict_get items "Путь");
                         ("MD5", dict_get items "MD5")]
                        (without_keys driver_keys items))
  | _ => None
  end.

(** lines 337-345 *)
Definition driver_service_row (d : value) : option (list (string * value)) :=
  match d with
  | VDict items =>
      Some (dict_update [("Имя Службы", dict_get items "Имя службы");
                         ("Отображаемое Имя", dict_get items "Отображаемое имя");
                         ("Состояние", dict_get items "Состояние");
                         ("Путь К Файлу", dict_get items "Путь к файлу");
                         ("MD5", dict_get items "MD5")]
                        (without_keys service_keys items))
  | _ => None
  end.

Fixpoint rows_from (row : value -> option (list (string * value))) (ds : list value)
  : option (list (list (string * value))) :=
  match ds with
  | [] => Some []
  | d :: ds' =>
      let? r := row d in
      let? rs := rows_from row ds' in
      Some (r :: rs)
  end.

(** the list [combined] after the three loops *)
Definition combined_drivers (loaded dir_files services : list value)
  : option (list (list (string * value))) :=
  let? a := rows_from loaded_driver_row loaded in
  let? b := rows_from driver_file_row dir_files in
  let? c := rows_from driver_service_row services in
  Some (a ++ b ++ c).

End Drivers.

(** A listing and two runs used below. *)

Definition listing_b_ivan : ls_result :=
  {| ls_items := [{| fv_file_name := "scan_b_ivan.json"; fv_id := "1";
                     fv_upload_timestamp := 5; fv_size := 10 |}];
     ls_raises := false |}.

Definition runs_load_ivan : list script_run :=
  [{| radio := "📊 Информация"; submitted := Some "ivan"; user_files := [];
      choice := None; clicked := false; download := None |};
   {| radio := "📊 Информация"; submitted := None;
      user_files := [{| file_name := "scan_b_ivan.json"; file_id := "1";
                        upload_timestamp := 5; file_size := 10 |}];
      choice := None; clicked := true;
      download := Some (VDict [("Имя пользователя", VStr "ivan")]) |}].

(** * Properties *)

(** ** ensure_list and the section extraction *)

Lemma ensure_list_nil_iff (x : value) :
  ensure_list x = [] <-> x = VNone \/ x = VList [].
Proof.
  split.
  - destruct x; simpl; intros E; try discriminate E; auto.
    subst l. now right.
  - intros [-> | ->]; reflexivity.
Qed.

(** C10: [ensure_list] is defined on every value: None (the value of an
    absent or null field) gives the empty list, a list is returned as it
    is, and any other value is wrapped into a list of one item, so a field
    holding one record gives a collection of one row. *)
Theorem ensure_list_total :
  ensure_list VNone = [] /\
  (forall l, ensure_list (VList l) = l) /\
  (forall x, x <> VNone -> (forall l, x <> VList l) ->
             ensure_list x = [x] /\ List.length (ensure_list x) = 1) /\
  (forall d k, dict_lookup d k = None ->
               option_map ensure_list (py_get (VDict d) k) = Some []) /\
  (forall d k, dict_lookup d k = Some VNone ->
               option_map ensure_list (py_get (VDict d) k) = Some []) /\
  (forall d k r, dict_lookup d k = Some (VDict r) ->
                 option_map ensure_list (py_get (VDict d) k) = Some [VDict r]).
Proof.
  split; [reflexivity | split; [reflexivity | split; [| repeat split]]].
  - intros x Hnone Hlist.
    destruct x; try (split; reflexivity).
    + now contradiction Hnone.
    + now contradiction (Hlist l).
  - intros d k E. simpl. unfold dict_get. now rewrite E.
  - intros d k E. simpl. unfold dict_get. now rewrite E.
  - intros d k r E. simpl. unfold dict_get. now rewrite E.
Qed.

Lemma ensure_list_total_witness :
  ensure_list (VDict [(key_name, VStr "a.zip")]) = [VDict [(key_name, VStr "a.zip")]] /\
  option_map ensure_list (py_get doc_root_downloads key_appdata) = Some [].
Proof.
  destruct ensure_list_total as (_ & _ & Hother & Habsent & _).
  split.
  - apply Hother; [discriminate | intros l; discriminate].
  - apply Habsent. reflexivity.
Defined.

(** C9, as the code has it: the downloads and desktop collections are read
    from the snapshot only; the temporary-files and deleted-files
    collections are read from the snapshot and, exactly when the snapshot
    has no such field, a null or an empty list there, from the document
    root. *)
Theorem section_fallback (d s : list (string * value)) :
  py_or (dict_get d key_snapshot) (VDict []) = VDict s ->
  exists secs,
    extract_sections (VDict d) = Some secs /\
    downloads_files secs = ensure_list (dict_get s key_downloads) /\
    desktop_files secs = ensure_list (dict_get s key_desktop) /\
    (ensure_list (dict_get s key_appdata) = [] ->
       appdata_files secs = ensure_list (dict_get d key_appdata)) /\
    (ensure_list (dict_get s key_appdata) <> [] ->
       appdata_files secs = ensure_list (dict_get s key_appdata)) /\
    (ensure_list (dict_get s key_deleted) = [] ->
       deleted_files secs = ensure_list (dict_get d key_deleted)) /\
    (ensure_list (dict_get s key_deleted) <> [] ->
       deleted_files secs = ensure_list (dict_get s key_deleted)) /\
    (forall k, ensure_list (dict_get s k) = [] <->
               dict_get s k = VNone \/ dict_get s k = VList []).
Proof.
  intros Hs. unfold extract_sections. simpl. rewrite Hs. simpl.
  eexists. split; [reflexivity |]. simpl.
  repeat split.
  - intros E. now rewrite E.
  - intros E. destruct (ensure_list (dict_get s key_appdata)); [now contradiction E | reflexivity].
  - intros E. now rewrite E.
  - intros E. destruct (ensure_list (dict_get s key_deleted)); [now contradiction E | reflexivity].
  - apply ensure_list_nil_iff.
  - apply ensure_list_nil_iff.
Qed.

Lemma section_fallback_witness :
  exists secs,
    extract_sections doc_root_appdata = Some secs /\
    appdata_files secs = [VDict [(key_name, VStr "t.tmp")]].
Proof.
  destruct (section_fallback
              [(key_snapshot, VDict [(key_appdata, VList [])]);
               (key_appdata, VList [VDict [(key_name, VStr "t.tmp")]])]
              [(key_appdata, VList [])] eq_refl)
    as (secs & E & _ & _ & Hroot & _).
  exists secs. split; [exact E |].
  rewrite Hroot; reflexivity.
Defined.

(** C9, as stated, fails for the downloads section: a downloads list at
    the document root is not used although the snapshot has none. *)
Lemma downloads_ignore_root :
  py_get doc_root_downloads key_snapshot = Some VNone /\
  option_map ensure_list (py_get doc_root_downloads key_downloads)
    = Some [VDict [(key_name, VStr "a.zip")]] /\
  option_map downloads_files (extract_sections doc_root_downloads) = Some [].
Proof. repeat split. Qed.

(** ** The archive tree renderer *)

(** One iteration on a dict entry: the entry is taken from the end of the
    stack, and the items of its nested list are appended in reverse order,
    one level deeper. *)
Lemma archive_loop_step {obj : Type} `{PyData obj}
    (fuel : nat) (stack : list (obj * nat)) (e : obj) (level : nat)
    (d : list (string * obj)) (ui : list (st_call obj)) :
  dict_items e = Some d ->
  archive_loop (S fuel) (stack ++ [(e, level)]) ui =
  archive_loop fuel
    (stack ++ map (fun c => (c, level + 1)) (rev (entry_nested d)))
    (ui ++ [render_entry d level]).
Proof.
  intros Hd. simpl. unfold pop. rewrite rev_app_distr. simpl.
  rewrite rev_involutive, Hd. reflexivity.
Qed.

Lemma archive_loop_raise {obj : Type} `{PyData obj}
    (fuel : nat) (stack : list (obj * nat)) (e : obj) (level : nat)
    (ui : list (st_call obj)) :
  dict_items e = None ->
  archive_loop (S fuel) (stack ++ [(e, level)]) ui = Raised ui.
Proof.
  intros Hd. simpl. unfold pop. rewrite rev_app_distr. simpl.
  rewrite Hd. reflexivity.
Qed.

Lemma preorder_unfold (level : nat) (e : value) :
  preorder level e = (e, level) :: preorder_forest (level + 1) (pushed e).
Proof.
  destruct e; try reflexivity.
  simpl. f_equal. unfold pushed, entry_nested. simpl.
  induction d as [| [k x] d IH]; [reflexivity |].
  simpl. destruct (String.eqb k key_nested).
  - destruct x; reflexivity.
  - exact IH.
Qed.

Lemma expand_app (a b : list (value * nat)) : expand (a ++ b) = expand a ++ expand b.
Proof. unfold expand. apply flat_map_app. Qed.

Lemma expand_children (level : nat) (es : list value) :
  expand (map (fun c => (c, level)) es) = preorder_forest level es.
Proof.
  unfold expand, preorder_forest.
  induction es as [| c es IH]; [reflexivity |]. simpl. now rewrite IH.
Qed.

Lemma archive_loop_preorder (fuel : nat) :
  forall (todo : list (value * nat)) (ui : list (st_call value)),
    List.length (expand todo) <= fuel ->
    archive_loop fuel (rev todo) ui = render_visits (expand todo) ui.
Proof.
  induction fuel as [| fuel IH]; intros todo ui Hlen.
  - destruct todo as [| [e level] todo]; [reflexivity |].
    unfold expand in Hlen. simpl in Hlen. rewrite preorder_unfold in Hlen.
    simpl in Hlen. lia.
  - destruct todo as [| [e level] todo]; [reflexivity |].
    change (expand ((e, level) :: todo)) with (preorder level e ++ expand todo) in *.
    rewrite preorder_unfold in *. simpl app in *.
    cbn [render_visits].
    destruct (dict_items e) as [d |] eqn:Hd.
    + simpl rev. rewrite (archive_loop_step fuel (rev todo) e level d ui Hd).
      rewrite map_rev, <- rev_app_distr.
      rewrite IH.
      * rewrite expand_app, expand_children.
        unfold pushed. now rewrite Hd.
      * rewrite expand_app, expand_children, length_app.
        unfold pushed in Hlen. rewrite Hd in Hlen.
        simpl in Hlen. rewrite length_app in Hlen. lia.
    + simpl rev. now rewrite (archive_loop_raise fuel (rev todo) e level ui Hd).
Qed.

Lemma preorder_leaf (level : nat) (d : list (string * value)) :
  entry_nested d = [] -> preorder level (VDict d) = [(VDict d, level)].
Proof.
  intros E. rewrite preorder_unfold. unfold pushed.
  cbn [dict_items value_PyData]. now rewrite E.
Qed.

(** C1: on a listing [e :: es] the stack starts as the entries in reverse
    order at depth 0; an iteration on a dict entry removes it from the end
    of the stack and appends the items of its nested list in reverse order
    one level deeper; with fuel for every entry the calls made are those
    of the entries in pre-order, up to the first entry that is not a dict;
    and for [A; B], where [A] has the nested entries [A1; A2], the calls
    are those of [A], [A1], [A2], [B], in this order. *)
Theorem display_archive_tree_preorder :
  (forall e es fuel,
     display_archive_tree fuel (VList (e :: es)) =
     archive_loop fuel (map (fun x => (x, 0)) (rev (e :: es))) []) /\
  (forall fuel stack d level ui,
     archive_loop (S fuel) (stack ++ [(VDict d, level)]) ui =
     archive_loop fuel
       (stack ++ map (fun c => (c, level + 1)) (rev (entry_nested d)))
       (ui ++ [render_entry d level])) /\
  (forall e es extra,
     display_archive_tree (List.length (preorder_forest 0 (e :: es)) + extra)
                          (VList (e :: es)) =
     render_visits (preorder_forest 0 (e :: es)) []) /\
  (forall dA dA1 dA2 dB,
     entry_nested dA = [VDict dA1; VDict dA2] ->
     entry_nested dA1 = [] -> entry_nested dA2 = [] -> entry_nested dB = [] ->
     map fst (preorder_forest 0 [VDict dA; VDict dB])
       = [VDict dA; VDict dA1; VDict dA2; VDict dB] /\
     display_archive_tree 4 (VList [VDict dA; VDict dB]) =
     Returned [render_entry dA 0; render_entry dA1 1;
               render_entry dA2 1; render_entry dB 0]).
Proof.
  assert (Hpre : forall e es extra,
             display_archive_tree (List.length (preorder_forest 0 (e :: es)) + extra)
                                  (VList (e :: es)) =
             render_visits (preorder_forest 0 (e :: es)) []).
  { intros e es extra. unfold display_archive_tree.
    cbn [list_items value_PyData].
    rewrite map_rev.
    rewrite archive_loop_preorder; rewrite expand_children; [reflexivity | lia]. }
  split; [reflexivity | split; [| split; [exact Hpre |]]].
  - intros fuel stack d level ui. now apply archive_loop_step.
  - intros dA dA1 dA2 dB HA HA1 HA2 HB.
    assert (E : preorder_forest 0 [VDict dA; VDict dB]
                = [(VDict dA, 0); (VDict dA1, 1); (VDict dA2, 1); (VDict dB, 0)]).
    { unfold preorder_forest. cbn [flat_map].
      rewrite (preorder_unfold 0 (VDict dA)), (preorder_leaf 0 dB HB).
      unfold pushed. cbn [dict_items value_PyData]. rewrite HA.
      unfold preorder_forest. cbn [flat_map].
      rewrite (preorder_leaf _ dA1 HA1), (preorder_leaf _ dA2 HA2).
      reflexivity. }
    split; [now rewrite E |].
    pose proof (Hpre (VDict dA) [VDict dB] 0) as Hrun.
    rewrite E in Hrun. exact Hrun.
Qed.

Lemma display_archive_tree_preorder_witness :
  display_archive_tree 4 (VList [entry_A; entry_B]) =
  Returned [render_entry [(key_name, VStr "A"); (key_is_dir, VBool true);
                          (key_nested, VList [entry_A1; entry_A2])] 0;
            render_entry [(key_name, VStr "A1"); ("size", VInt 3)] 1;
            render_entry [(key_name, VStr "A2")] 1;
            render_entry [(key_archive_name, VStr "B")] 0].
Proof.
  destruct display_archive_tree_preorder as (_ & _ & _ & HAB).
  apply HAB; reflexivity.
Defined.

(** C8: a value that is not a list gives the one warning and nothing else,
    the empty list gives the one "no content" line, whatever the fuel. *)
Theorem display_archive_tree_notices :
  (forall (x : value) (fuel : nat),
     (forall l, x <> VList l) ->
     display_archive_tree fuel x = Returned [st_warning "Файл не является архивом."]) /\
  (forall fuel : nat,
     display_archive_tree fuel (VList []) = Returned [st_write "Нет Содержимого"]).
Proof.
  split.
  - intros x fuel Hx. destruct x; try reflexivity.
    now contradiction (Hx l).
  - reflexivity.
Qed.

Lemma display_archive_tree_notices_witness :
  display_archive_tree 0 (VFloat nan) = Returned [st_warning "Файл не является архивом."] /\
  display_archive_tree 0 (VDict [(key_name, VStr "a")])
    = Returned [st_warning "Файл не является архивом."].
Proof.
  destruct display_archive_tree_notices as [Hnot _].
  split; apply Hnot; intros l; discriminate.
Defined.

(** *** Termination

    The loop has no bound on the depth and does not remember the entries
    it has seen.  It stops when the entries reachable from the listing are
    finitely many along every path, which a weight that strictly exceeds
    the total weight of the pushed entries expresses. *)

Section Termination.
Context {obj : Type} `{PyData obj}.
Variable weight : obj -> nat.
Hypothesis weight_pushed : forall e, list_sum (map weight (pushed e)) < weight e.





End Termination.







(** ** The record normalizer *)






Lemma simple_json_normalize_rows (items : list value) :
  Forall (fun row => is_list row = false) items ->
  simple_json_normalize items = Some (map row_record items).
Proof.
  induction 1 as [| row items Hrow _ IH]; [reflexivity |].
  simpl. rewrite IH.
  destruct row; try reflexivity. discriminate Hrow.
Qed.

Lemma existsb_eqb_In (k : string) (l : list string) :
  existsb (String.eqb k) l = true <-> In k l.
Proof.
  rewrite existsb_exists. split.
  - intros (x & Hin & E). apply String.eqb_eq in E. now subst x.
  - intros Hin. exists k. split; [exact Hin | apply String.eqb_refl].
Qed.

Lemma in_add_keys {A : Type} (d : list (string * A)) :
  forall (seen : list string) (k : string),
    In k (add_keys seen d) <-> In k seen \/ In k (keys d).
Proof.
  unfold add_keys.
  induction d as [| [k0 v0] d IH]; intros seen k; simpl.
  - tauto.
  - rewrite IH. destruct (existsb (String.eqb k0) seen) eqn:E.
    + apply existsb_eqb_In in E. intuition (subst; auto).
    + rewrite in_app_iff. simpl. intuition (subst; auto).
Qed.

Lemma in_first_seen_keys {A : Type} (records : list (list (string * A))) :
  forall (seen : list string) (k : string),
    In k (fold_left add_keys records seen) <->
    In k seen \/ exists d, In d records /\ In k (keys d).
Proof.
  induction records as [| d records IH]; intros seen k; simpl.
  - split; [auto | intros [Hin | (d & [] & _)]; exact Hin].
  - rewrite IH, in_add_keys. split.
    + intros [[Hin | Hin] | (d' & Hd' & Hin)]; eauto.
    + intros [Hin | (d' & [-> | Hd'] & Hin)]; eauto.
Qed.

Lemma column_labels_of_records (records : list (list (string * value))) :
  column_labels (DataFrame_of_records records) = first_seen_keys records.
Proof.
  unfold column_labels, DataFrame_of_records. simpl.
  rewrite map_map. simpl. apply map_id.
Qed.

Lemma DataFrame_of_records_wf (records : list (list (string * value))) :
  df_wf (DataFrame_of_records records).
Proof.
  unfold df_wf, DataFrame_of_records. simpl.
  apply Forall_forall. intros col Hin.
  apply in_map_iff in Hin. destruct Hin as (k & <- & _).
  simpl. now rewrite length_map, length_seq.
Qed.


Lemma df_from_list_of_dicts_cons (item : value) (items : list value)
    (default_columns : option (list string)) :
  Forall (fun row => is_list row = false) (item :: items) ->
  df_from_list_of_dicts (item :: items) default_columns =
  Some (DataFrame_of_records (map row_record (item :: items))).
Proof.
  intros Hrows. unfold df_from_list_of_dicts, json_normalize.
  now rewrite (simple_json_normalize_rows _ Hrows).
Qed.







(** ** The filter *)

Lemma select_by_nil {A : Type} (mask : list bool) : select_by mask (@nil A) = [].
Proof. destruct mask as [| [] mask]; reflexivity. Qed.

Lemma select_by_map {A B : Type} (f : A -> B) (mask : list bool) :
  forall l : list A, select_by mask (map f l) = map f (select_by mask l).
Proof.
  induction mask as [| b mask IH]; intros [| x l]; simpl; try reflexivity.
  destruct b; simpl; now rewrite IH.
Qed.

Lemma select_by_combine {A B : Type} (mask : list bool) :
  forall (a : list A) (b : list B),
    select_by mask (combine a b) = combine (select_by mask a) (select_by mask b).
Proof.
  induction mask as [| x mask IH]; intros [| y a] [| z b]; simpl; try reflexivity;
    destruct x; simpl; rewrite ?IH; try reflexivity;
    now destruct (select_by mask a).
Qed.

Lemma select_by_mask_or (mask a b : list bool) :
  select_by mask (mask_or a b) = mask_or (select_by mask a) (select_by mask b).
Proof. unfold mask_or. now rewrite select_by_map, select_by_combine. Qed.

Lemma select_by_repeat {A B : Type} (x : B) (mask : list bool) :
  forall l : list A,
    select_by mask (repeat x (List.length l)) = repeat x (List.length (select_by mask l)).
Proof.
  induction mask as [| b mask IH]; intros [| y l]; simpl; try reflexivity.
  destruct b; simpl; now rewrite IH.
Qed.

Lemma select_by_self (mask : list bool) :
  forall {A : Type} (l : list A),
    select_by (select_by mask mask) (select_by mask l) = select_by mask l.
Proof.
  induction mask as [| b mask IH]; intros A [| x l]; simpl; try reflexivity.
  - now rewrite select_by_nil.
  - destruct b; simpl; now rewrite IH.
Qed.

Lemma select_by_incl {A : Type} (mask : list bool) :
  forall l : list A, incl (select_by mask l) l.
Proof.
  induction mask as [| b mask IH]; intros [| x l]; simpl; try (intros y []).
  destruct b.
  - intros y [-> | Hy]; [now left | right; now apply IH].
  - intros y Hy. right. now apply IH.
Qed.

Lemma select_by_mono {A : Type} (a b : list bool) :
  Forall2 (fun x y => x = true -> y = true) a b ->
  forall l : list A, incl (select_by a l) (select_by b l).
Proof.
  induction 1 as [| x y a b Hxy _ IH]; intros [| z l]; simpl; try (intros u []).
  destruct x.
  - rewrite (Hxy eq_refl). intros u [-> | Hu]; [now left | right; now apply IH].
  - destruct y; [intros u Hu; right; now apply IH | apply IH].
Qed.

Lemma mask_or_mono (a b s t : list bool) :
  Forall2 (fun x y => x = true -> y = true) a b ->
  Forall2 (fun x y => x = true -> y = true) s t ->
  Forall2 (fun x y => x = true -> y = true) (mask_or a s) (mask_or b t).
Proof.
  intros Hab. revert s t.
  induction Hab as [| x y a b Hxy _ IH]; intros s t Hst.
  - constructor.
  - destruct Hst as [| u v s t Huv Hst]; [constructor |].
    unfold mask_or. simpl. constructor; [| now apply IH].
    destruct x, u; simpl; intros E; try discriminate E;
      rewrite ?(Hxy eq_refl), ?(Huv eq_refl); auto using orb_true_r.
Qed.

Lemma rows_of_select {cell : Type} (mask : list bool) :
  forall (labels : list nat) (cols : list (list cell)),
    rows_of (select_by mask labels) (map (select_by mask) cols)
    = select_by mask (rows_of labels cols).
Proof.
  induction mask as [| b mask IH]; intros [| i labels] cols; try reflexivity.
  destruct b.
  - change (select_by (true :: mask) (i :: labels)) with (i :: select_by mask labels).
    cbn [rows_of select_by]. rewrite <- IH. f_equal.
    + f_equal. rewrite map_map. apply map_ext. now intros [| x col].
    + f_equal. rewrite !map_map. apply map_ext.
      intros [| x col]; [symmetry; apply select_by_nil | reflexivity].
  - change (select_by (false :: mask) (i :: labels)) with (select_by mask labels).
    cbn [rows_of select_by]. rewrite <- IH. f_equal.
    rewrite map_map. apply map_ext.
    intros [| x col]; [symmetry; apply select_by_nil | reflexivity].
Qed.

Lemma df_rows_select {cell : Type} (mask : list bool) (df : DataFrame cell) :
  df_rows (df_select mask df) = select_by mask (df_rows df).
Proof.
  unfold df_rows, df_select. simpl.
  rewrite map_map. simpl.
  rewrite <- rows_of_select. now rewrite map_map.
Qed.

Lemma df_getitem_select {cell : Type} (mask : list bool) (df : DataFrame cell) (col : string) :
  df_getitem (df_select mask df) col = option_map (select_by mask) (df_getitem df col).
Proof.
  unfold df_getitem, df_select. simpl.
  assert (E : filter (fun c : string * list cell => String.eqb (fst c) col)
                (map (fun c => (fst c, select_by mask (snd c))) (df_columns df))
              = map (fun c => (fst c, select_by mask (snd c)))
                  (filter (fun c : string * list cell => String.eqb (fst c) col)
                     (df_columns df))).
  { induction (df_columns df) as [| c cols IH]; [reflexivity |].
    simpl. destruct (String.eqb (fst c) col); simpl; now rewrite IH. }
  rewrite E.
  destruct (filter _ (df_columns df)) as [| c [| c' cs]]; reflexivity.
Qed.

Lemma mask_or_length (a b : list bool) :
  List.length a = List.length b -> List.length (mask_or a b) = List.length a.
Proof.
  intros E. unfold mask_or. rewrite length_map, length_combine. lia.
Qed.

Lemma mask_or_nth (a : list bool) :
  forall (b : list bool) (i : nat),
    List.length a = List.length b ->
    nth i (mask_or a b) false = nth i a false || nth i b false.
Proof.
  unfold mask_or.
  induction a as [| x a IH]; intros [| y b] i E; try discriminate E.
  - now destruct i.
  - destruct i as [| i]; [reflexivity |].
    simpl. apply IH. now injection E.
Qed.

Lemma nth_map_true {A : Type} (f : A -> bool) (l : list A) :
  forall i, nth i (map f l) false = true <-> exists c, nth_error l i = Some c /\ f c = true.
Proof.
  induction l as [| x l IH]; intros [| i]; simpl.
  - split; [discriminate | intros (c & E & _); discriminate E].
  - split; [discriminate | intros (c & E & _); discriminate E].
  - split; [intros E; now exists x | intros (c & [= <-] & E); exact E].
  - apply IH.
Qed.

Lemma df_getitem_In {cell : Type} (df : DataFrame cell) (col : string) (cells : list cell) :
  df_getitem df col = Some cells -> In (col, cells) (df_columns df).
Proof.
  unfold df_getitem.
  destruct (filter _ (df_columns df)) as [| c [| c' cs]] eqn:E; try discriminate.
  intros [= <-].
  assert (Hin : In c (filter (fun c => String.eqb (fst c) col) (df_columns df))).
  { rewrite E. now left. }
  apply filter_In in Hin. destruct Hin as [Hin Hc].
  apply String.eqb_eq in Hc. destruct c as [k v]. simpl in *. now subst k.
Qed.

Section QuickFilterProperties.
Context {cell : Type} `{TextOps cell}.

Lemma column_matches_select (mask : list bool) (df : DataFrame cell) (q col : string) :
  column_matches (df_select mask df) q col
  = option_map (select_by mask) (column_matches df q col).
Proof.
  unfold column_matches. rewrite df_getitem_select.
  destruct (df_getitem df col) as [cells |]; [| reflexivity].
  simpl. destruct (str_contains q) as [m |]; [| reflexivity].
  simpl. now rewrite select_by_map.
Qed.

Lemma mask_loop_select (mask0 : list bool) (df : DataFrame cell) (q : string)
    (cols : list string) :
  forall mask,
    mask_loop (df_select mask0 df) q cols (select_by mask0 mask)
    = select_by mask0 (mask_loop df q cols mask).
Proof.
  induction cols as [| col cols IH]; intros mask; [reflexivity |].
  simpl. rewrite column_matches_select.
  destruct (column_matches df q col) as [s |]; simpl.
  - now rewrite <- select_by_mask_or, IH.
  - apply IH.
Qed.

Lemma filter_mask_select (mask0 : list bool) (df : DataFrame cell) (q : string) :
  filter_mask (df_select mask0 df) q = select_by mask0 (filter_mask df q).
Proof.
  unfold filter_mask.
  rewrite <- mask_loop_select. f_equal.
  - unfold column_labels, df_select. simpl. rewrite map_map. reflexivity.
  - unfold df_select. simpl. symmetry. apply select_by_repeat.
Qed.

Lemma df_select_self (mask : list bool) (df : DataFrame cell) :
  df_select (select_by mask mask) (df_select mask df) = df_select mask df.
Proof.
  unfold df_select. simpl. f_equal.
  - apply select_by_self.
  - rewrite map_map. apply map_ext. intros col. simpl.
    now rewrite select_by_self.
Qed.

(** C6: the filter returns the table it is given for the empty query
    and for an empty table, and filtering a second time with the same
    query changes nothing. *)
Theorem quick_filter_df_idempotent :
  (forall df : DataFrame cell, quick_filter_df df "" = df) /\
  (forall (df : DataFrame cell) q, df_empty df = true -> quick_filter_df df q = df) /\
  (forall (df : DataFrame cell) q,
      quick_filter_df (quick_filter_df df q) q = quick_filter_df df q).
Proof.
  split; [reflexivity | split].
  - intros df q E. unfold quick_filter_df. rewrite E.
    now rewrite orb_true_r.
  - intros df q. unfold quick_filter_df.
    destruct (String.eqb q "" || df_empty df) eqn:E.
    + now rewrite E.
    + destruct (String.eqb q "" || df_empty (df_select (filter_mask df (str_lower q)) df));
        [reflexivity |].
      rewrite filter_mask_select. apply df_select_self.
Qed.

Lemma column_matches_length (df : DataFrame cell) (q col : string) (s : list bool) :
  df_wf df -> column_matches df q col = Some s ->
  List.length s = List.length (df_index df).
Proof.
  intros Hwf. unfold column_matches.
  destruct (df_getitem df col) as [cells |] eqn:Hcol; [| discriminate].
  simpl. destruct (str_contains q) as [m |]; [| discriminate].
  intros [= <-]. rewrite length_map.
  apply df_getitem_In in Hcol.
  unfold df_wf in Hwf. rewrite Forall_forall in Hwf.
  exact (Hwf _ Hcol).
Qed.

Lemma mask_loop_spec (df : DataFrame cell) (q : string) (cols : list string) :
  df_wf df ->
  forall mask,
    List.length mask = List.length (df_index df) ->
    List.length (mask_loop df q cols mask) = List.length (df_index df) /\
    forall i, nth i (mask_loop df q cols mask) false
              = nth i mask false || row_matches df q cols i.
Proof.
  intros Hwf.
  induction cols as [| col cols IH]; intros mask Hlen.
  - split; [exact Hlen | intros i; simpl; now rewrite orb_false_r].
  - simpl. destruct (column_matches df q col) as [s |] eqn:Hs.
    + pose proof (column_matches_length df q col s Hwf Hs) as Hls.
      destruct (IH (mask_or mask s)) as [Hl Hn].
      { rewrite mask_or_length; congruence. }
      split; [exact Hl |].
      intros i. rewrite Hn, mask_or_nth by congruence.
      now rewrite orb_assoc.
    + destruct (IH mask Hlen) as [Hl Hn].
      split; [exact Hl | intros i; now rewrite Hn].
Qed.

Lemma filter_mask_spec (df : DataFrame cell) (q : string) :
  df_wf df ->
  List.length (filter_mask df q) = List.length (df_index df) /\
  forall i, nth i (filter_mask df q) false = row_matches df q (column_labels df) i.
Proof.
  intros Hwf. unfold filter_mask.
  destruct (mask_loop_spec df q (column_labels df) Hwf
              (repeat false (List.length (df_index df)))) as [Hl Hn].
  { apply repeat_length. }
  split; [exact Hl |].
  intros i. rewrite Hn.
  replace (nth i (repeat false (List.length (df_index df))) false) with false;
    [reflexivity |].
  symmetry. apply nth_repeat.
Qed.

End QuickFilterProperties.

(** *** Queries without special characters *)

Lemma list_ascii_of_string_app (a b : string) :
  list_ascii_of_string (a ++ b) = list_ascii_of_string a ++ list_ascii_of_string b.
Proof. induction a as [| c a IH]; simpl; [reflexivity | now rewrite IH]. Qed.

Lemma re_literal_app (a b : string) :
  re_literal (a ++ b) = re_literal a && re_literal b.
Proof. unfold re_literal. now rewrite list_ascii_of_string_app, forallb_app. Qed.

Lemma lower_app (a b : string) : lower (a ++ b) = (lower a ++ lower b)%string.
Proof. induction a as [| c a IH]; simpl; [reflexivity | now rewrite IH]. Qed.

Lemma re_compile_literal (q : string) :
  re_literal q = true ->
  re_compile q = Some [map Lit (list_ascii_of_string q)].
Proof.
  induction q as [| c q IH]; [reflexivity |].
  unfold re_literal. simpl. intros E.
  apply andb_true_iff in E. destruct E as [Hc Hq].
  rewrite (IH Hq). simpl.
  destruct (Ascii.eqb c "|") eqn:Ebar.
  { apply Ascii.eqb_eq in Ebar. subst c. discriminate Hc. }
  destruct (Ascii.eqb c ".") eqn:Edot.
  { apply Ascii.eqb_eq in Edot. subst c. discriminate Hc. }
  apply negb_true_iff in Hc. now rewrite Hc.
Qed.

Lemma match_here_literal (q : string) :
  forall s, match_here (map Lit (list_ascii_of_string q)) s = String.prefix q s.
Proof.
  induction q as [| c q IH]; intros [| c' s]; simpl; try reflexivity.
  rewrite IH. destruct (ascii_dec c c') as [-> | Hne].
  - now rewrite Ascii.eqb_refl.
  - apply Ascii.eqb_neq in Hne. now rewrite Hne.
Qed.

Lemma search_alt_literal (q : string) :
  forall s, search_alt (map Lit (list_ascii_of_string q)) s = is_substring q s.
Proof.
  induction s as [| c s IH]; simpl; rewrite match_here_literal; [reflexivity |].
  now rewrite IH.
Qed.

(** On a query without special characters the test of [re_contains] is
    the containment of the query. *)
Lemma re_contains_literal (q : string) :
  re_literal q = true ->
  exists m, re_contains q = Some m /\ forall s, m s = is_substring q s.
Proof.
  intros Hq. unfold re_contains. rewrite (re_compile_literal q Hq). simpl.
  eexists. split; [reflexivity |].
  intros s. unfold re_search. simpl.
  now rewrite search_alt_literal, orb_false_r.
Qed.

Lemma prefix_app_l (a b : string) :
  forall s, String.prefix (a ++ b) s = true -> String.prefix a s = true.
Proof.
  induction a as [| c a IH]; intros [| c' s]; simpl; try reflexivity; try discriminate.
  destruct (ascii_dec c c'); [apply IH | discriminate].
Qed.

Lemma is_substring_cons (q : string) (c : ascii) (s : string) :
  is_substring q (String c s) = String.prefix q (String c s) || is_substring q s.
Proof. reflexivity. Qed.

Lemma is_substring_nil (q : string) :
  is_substring q EmptyString = String.prefix q EmptyString.
Proof. simpl. apply orb_false_r. Qed.

Lemma is_substring_app_l (a b : string) :
  forall s, is_substring (a ++ b) s = true -> is_substring a s = true.
Proof.
  induction s as [| c s IH].
  - rewrite !is_substring_nil. apply prefix_app_l.
  - rewrite !is_substring_cons. intros E.
    apply orb_true_iff in E. apply orb_true_iff.
    destruct E as [E | E]; [left; now apply (prefix_app_l a b) | right; now apply IH].
Qed.

Section QuickFilterRows.
Context {cell : Type} `{TextOps cell}.

Lemma mask_loop_raises (df : DataFrame cell) (q : string) (cols : list string) :
  str_contains q = None ->
  forall mask, mask_loop df q cols mask = mask.
Proof.
  intros Hq. induction cols as [| col cols IH]; intros mask; [reflexivity |].
  simpl. unfold column_matches. rewrite Hq.
  destruct (df_getitem df col); simpl; apply IH.
Qed.

Lemma select_by_all_false {A : Type} (l : list A) :
  forall n, select_by (repeat false n) l = [].
Proof.
  induction l as [| x l IH]; intros [| n]; simpl; try reflexivity. apply IH.
Qed.

Lemma row_matches_iff (df : DataFrame cell) (q : string) (cols : list string) (i : nat) :
  row_matches df q cols i = true <->
  exists m col cells c s,
    str_contains q = Some m /\
    In col cols /\
    df_getitem df col = Some cells /\
    nth_error cells i = Some c /\
    astype_str c = Some s /\
    m (str_lower s) = true.
Proof.
  unfold row_matches. rewrite existsb_exists. split.
  - intros (col & Hcol & Hm).
    unfold column_matches in Hm.
    destruct (df_getitem df col) as [cells |] eqn:Hcells; [| discriminate Hm].
    simpl in Hm.
    destruct (str_contains q) as [m |] eqn:Hq; [| discriminate Hm].
    simpl in Hm. apply nth_map_true in Hm. destruct Hm as (c & Hc & Hcm).
    unfold cell_matches in Hcm.
    destruct (astype_str c) as [s |] eqn:Hs; [| discriminate Hcm].
    exists m, col, cells, c, s. repeat split; assumption.
  - intros (m & col & cells & c & s & Hq & Hcol & Hcells & Hc & Hs & Hm).
    exists col. split; [exact Hcol |].
    unfold column_matches. rewrite Hcells, Hq. simpl.
    apply nth_map_true. exists c. split; [exact Hc |].
    unfold cell_matches. now rewrite Hs.
Qed.

Lemma mask_loop_mono (df : DataFrame cell) (qa qb : string) (ma mb : string -> bool) :
  str_contains qa = Some ma ->
  str_contains qb = Some mb ->
  (forall s, ma s = true -> mb s = true) ->
  forall (cols : list string) (maska maskb : list bool),
    Forall2 (fun x y => x = true -> y = true) maska maskb ->
    Forall2 (fun x y => x = true -> y = true)
            (mask_loop df qa cols maska) (mask_loop df qb cols maskb).
Proof.
  intros Ha Hb Hab.
  induction cols as [| col cols IH]; intros maska maskb Hmask; [exact Hmask |].
  simpl. unfold column_matches. rewrite Ha, Hb.
  destruct (df_getitem df col) as [cells |]; simpl; [| now apply IH].
  apply IH. apply mask_or_mono; [exact Hmask |].
  clear -Hab. induction cells as [| c cells IHc]; simpl; constructor; [| exact IHc].
  unfold cell_matches. destruct (astype_str c); [apply Hab | discriminate].
Qed.

End QuickFilterRows.

(** C3, as the code has it: on a table with rows and columns and a query
    that is not empty, the result is the selection of the rows whose mask
    is true, and the mask of row [i] is true exactly when some column with
    a label of its own has in row [i] a cell with a text whose lowered form
    passes the test that [str.contains] builds from the lowered query; a
    cell without a text never passes, and when the test cannot be built no
    row is kept.  For a query without special characters, on plain text,
    the test is the containment of the query. *)
Theorem quick_filter_df_keeps {cell : Type} `{TextOps cell}
    (df : DataFrame cell) (q : string) :
  df_wf df -> q <> "" -> df_empty df = false ->
  quick_filter_df df q = df_select (filter_mask df (str_lower q)) df /\
  df_rows (quick_filter_df df q) = select_by (filter_mask df (str_lower q)) (df_rows df) /\
  List.length (filter_mask df (str_lower q)) = List.length (df_index df) /\
  (forall i,
      nth i (filter_mask df (str_lower q)) false = true <->
      exists m col cells c s,
        str_contains (str_lower q) = Some m /\
        In col (column_labels df) /\
        df_getitem df col = Some cells /\
        nth_error cells i = Some c /\
        astype_str c = Some s /\
        m (str_lower s) = true) /\
  (str_contains (str_lower q) = None -> df_len (quick_filter_df df q) = 0) /\
  (forall p, re_literal p = true ->
             exists m, re_contains p = Some m /\ forall s, m s = is_substring p s).
Proof.
  intros Hwf Hq Hne.
  assert (E : quick_filter_df df q = df_select (filter_mask df (str_lower q)) df).
  { unfold quick_filter_df. rewrite Hne.
    apply String.eqb_neq in Hq. now rewrite Hq. }
  destruct (filter_mask_spec df (str_lower q) Hwf) as [Hlen Hnth].
  repeat split.
  - exact E.
  - rewrite E. apply df_rows_select.
  - exact Hlen.
  - rewrite Hnth. apply row_matches_iff.
  - rewrite Hnth. apply row_matches_iff.
  - intros Hraise. rewrite E. unfold df_len, df_select, filter_mask. simpl.
    rewrite (mask_loop_raises df _ _ Hraise).
    now rewrite select_by_all_false.
  - apply re_contains_literal.
Qed.

Lemma quick_filter_df_keeps_witness :
  df_rows (quick_filter_df frame_ab "B") = [(1, [Some "b"; Some "2"])].
Proof.
  destruct (quick_filter_df_keeps frame_ab "B") as (_ & Hrows & _).
  - repeat constructor.
  - discriminate.
  - reflexivity.
  - rewrite Hrows. reflexivity.
Defined.

(** C3, as stated, fails: the query is a pattern, and the one-character
    query [.] keeps a row none of whose texts contains a dot. *)
Lemma dot_query_keeps_row_without_dot :
  df_rows frame_x = [(0, [Some "x"])] /\
  is_substring (lower ".") (lower "x") = false /\
  df_rows (quick_filter_df frame_x ".") = [(0, [Some "x"])].
Proof. repeat split. Qed.

(** C7, as the code has it: for queries that lowering maps piece by piece
    and whose lowered form has no special character, where the test is
    containment, every row kept for [q1 ++ q2] is kept for [q1]. *)
Theorem quick_filter_df_monotone {cell : Type} `{TextOps cell}
    (df : DataFrame cell) (q1 q2 : string) :
  (forall p, re_literal p = true ->
             exists m, str_contains p = Some m /\ forall s, m s = is_substring p s) ->
  str_lower (q1 ++ q2) = (str_lower q1 ++ str_lower q2)%string ->
  re_literal (str_lower (q1 ++ q2)) = true ->
  incl (df_rows (quick_filter_df df (q1 ++ q2))) (df_rows (quick_filter_df df q1)).
Proof.
  intros Hlit Happ Hq.
  unfold quick_filter_df.
  destruct q1 as [| c q1].
  - simpl String.eqb at 2. cbn [orb].
    destruct (String.eqb _ "" || df_empty df); [apply incl_refl |].
    rewrite df_rows_select. apply select_by_incl.
  - change (String.eqb (String c q1 ++ q2) "") with false.
    change (String.eqb (String c q1) "") with false.
    cbn [orb].
    destruct (df_empty df); [apply incl_refl |].
    rewrite !df_rows_select. apply select_by_mono.
    rewrite Happ in Hq |- *.
    pose proof Hq as Hq12.
    rewrite re_literal_app in Hq. apply andb_true_iff in Hq. destruct Hq as [Hq1 _].
    destruct (Hlit _ Hq1) as (m1 & Hm1 & Hs1).
    destruct (Hlit _ Hq12) as (m12 & Hm12 & Hs12).
    unfold filter_mask. apply (mask_loop_mono df _ _ m12 m1 Hm12 Hm1).
    + intros s. rewrite Hs12, Hs1. apply is_substring_app_l.
    + clear. induction (List.length (df_index df)); simpl; constructor; auto.
Qed.

Lemma quick_filter_df_monotone_witness :
  re_literal (lower "ALp") = true /\
  incl (df_rows (quick_filter_df frame_ab ("AL" ++ "p")))
       (df_rows (quick_filter_df frame_ab "AL")).
Proof.
  split; [reflexivity |].
  apply (quick_filter_df_monotone frame_ab "AL" "p").
  - exact re_contains_literal.
  - apply lower_app.
  - reflexivity.
Defined.

(** C7, as stated, fails: the longer query [a|b] keeps the row of [b],
    which the query [a] does not keep. *)
Lemma alternation_query_not_monotone :
  In (1, [Some "b"; Some "2"]) (df_rows (quick_filter_df frame_ab ("a" ++ "|b"))) /\
  ~ In (1, [Some "b"; Some "2"]) (df_rows (quick_filter_df frame_ab "a")).
Proof.
  split.
  - right. left. reflexivity.
  - intros [E | []]. discriminate E.
Qed.

Lemma quick_filter_df_idempotent_witness :
  quick_filter_df (@DataFrame_columns string ["PID"; "Имя"]) "b"
  = DataFrame_columns ["PID"; "Имя"] /\
  quick_filter_df (quick_filter_df frame_ab "a|b") "a|b" = quick_filter_df frame_ab "a|b".
Proof.
  destruct (@quick_filter_df_idempotent string text_cells) as (_ & Hempty & Hidem).
  split; [apply Hempty; reflexivity | apply Hidem].
Defined.

(** * Further properties *)

(** ** list_user_scans *)

Lemma string_app_assoc (a b c : string) :
  ((a ++ b) ++ c = a ++ (b ++ c))%string.
Proof.
  induction a as [| x a IH]; [reflexivity |].
  change (String x ((a ++ b) ++ c) = String x (a ++ b ++ c))%string.
  now rewrite IH.
Qed.

Lemma ends_with_iff (s suffix : string) :
  ends_with s suffix = true <-> exists p, s = (p ++ suffix)%string.
Proof.
  induction s as [| c s IH].
  - change (ends_with EmptyString suffix) with (String.eqb EmptyString suffix || false).
    rewrite orb_false_r, String.eqb_eq. split.
    + intros <-. now exists EmptyString.
    + intros (p & E). destruct p; [exact E | discriminate E].
  - change (ends_with (String c s) suffix)
      with (String.eqb (String c s) suffix || ends_with s suffix).
    rewrite orb_true_iff, String.eqb_eq, IH. split.
    + intros [<- | (p & ->)]; [now exists EmptyString | now exists (String c p)].
    + intros (p & E). destruct p as [| c' p].
      * left. exact E.
      * right. exists p. simpl in E. now injection E.
Qed.

Lemma insert_desc_perm (x : scan_file) (l : list scan_file) :
  Permutation (insert_desc x l) (x :: l).
Proof.
  induction l as [| y l IH]; simpl; [reflexivity |].
  destruct (Z.leb (upload_timestamp y) (upload_timestamp x)); [reflexivity |].
  rewrite IH. apply perm_swap.
Qed.

Lemma sort_desc_perm (l : list scan_file) : Permutation (sort_desc l) l.
Proof.
  induction l as [| x l IH]; simpl; [reflexivity |].
  rewrite insert_desc_perm. now constructor.
Qed.

Lemma insert_desc_sorted (x : scan_file) (l : list scan_file) :
  Sorted newer_first l -> Sorted newer_first (insert_desc x l).
Proof.
  induction 1 as [| y l Hl IH Hy]; simpl.
  - repeat constructor.
  - destruct (Z.leb (upload_timestamp y) (upload_timestamp x)) eqn:E.
    + apply Z.leb_le in E. repeat constructor; assumption.
    + apply Z.leb_gt in E. constructor; [exact IH |].
      destruct l as [| z l]; simpl.
      * constructor. unfold newer_first. lia.
      * destruct (Z.leb (upload_timestamp z) (upload_timestamp x));
          constructor; unfold newer_first; [lia |].
        now inversion Hy.
Qed.

Lemma sort_desc_sorted (l : list scan_file) : Sorted newer_first (sort_desc l).
Proof.
  induction l as [| x l IH]; simpl; [constructor | now apply insert_desc_sorted].
Qed.

Lemma insert_desc_ties (t : Z) (x : scan_file) (l : list scan_file) :
  filter (fun f => Z.eqb (upload_timestamp f) t) (insert_desc x l)
  = filter (fun f => Z.eqb (upload_timestamp f) t) (x :: l).
Proof.
  induction l as [| y l IH]; [reflexivity |].
  simpl insert_desc.
  destruct (Z.leb (upload_timestamp y) (upload_timestamp x)) eqn:E; [reflexivity |].
  apply Z.leb_gt in E.
  cbn [filter] in *. rewrite IH.
  destruct (Z.eqb (upload_timestamp x) t) eqn:Ex; [| reflexivity].
  destruct (Z.eqb (upload_timestamp y) t) eqn:Ey; [| reflexivity].
  apply Z.eqb_eq in Ex, Ey. lia.
Qed.

Lemma sort_desc_ties (t : Z) (l : list scan_file) :
  filter (fun f => Z.eqb (upload_timestamp f) t) (sort_desc l)
  = filter (fun f => Z.eqb (upload_timestamp f) t) l.
Proof.
  induction l as [| x l IH]; [reflexivity |].
  simpl sort_desc. rewrite insert_desc_ties. cbn [filter]. now rewrite IH.
Qed.

Lemma sorted_matching_files_In (items : list file_version) (username : string)
    (f : scan_file) :
  In f (sort_desc (matching_files username items)) <->
  exists v p, In v items /\ f = describe v /\
              fv_file_name v = (p ++ "_" ++ username ++ ".json")%string.
Proof.
  split.
  - intros Hin.
    apply (Permutation_in _ (sort_desc_perm _)) in Hin.
    unfold matching_files in Hin.
    apply in_map_iff in Hin. destruct Hin as (v & <- & Hv).
    apply filter_In in Hv. destruct Hv as [Hv Hs].
    apply ends_with_iff in Hs. destruct Hs as (p & Hp).
    exists v, p. auto.
  - intros (v & p & Hv & -> & Hp).
    apply (Permutation_in _ (Permutation_sym (sort_desc_perm _))).
    unfold matching_files. apply in_map. apply filter_In. split; [exact Hv |].
    apply ends_with_iff. now exists p.
Qed.

(** X1: when the listing does not raise, the files returned are exactly
    the descriptions of the listed versions whose name ends with
    [_<username>.json] (a name [p ++ "_" ++ username ++ ".json"]), and no
    error is reported. *)
Theorem list_user_scans_members (items : list file_version) (username : string)
    (f : scan_file) :
  snd (list_user_scans (Some {| ls_items := items; ls_raises := false |}) username) = false /\
  (In f (fst (list_user_scans (Some {| ls_items := items; ls_raises := false |}) username))
   <->
   exists v p, In v items /\ f = describe v /\
               fv_file_name v = (p ++ "_" ++ username ++ ".json")%string).
Proof.
  split; [reflexivity |]. apply sorted_matching_files_In.
Qed.

(** X2: when the listing does not raise, the result is ordered by upload
    time, newest first, it is a rearrangement of the matching files, and
    files with the same upload time stay in the order of the listing. *)
Theorem list_user_scans_sorted (items : list file_version) (username : string) :
  Sorted newer_first
    (fst (list_user_scans (Some {| ls_items := items; ls_raises := false |}) username)) /\
  Permutation
    (fst (list_user_scans (Some {| ls_items := items; ls_raises := false |}) username))
    (matching_files username items) /\
  (forall t,
      filter (fun f => Z.eqb (upload_timestamp f) t)
        (fst (list_user_scans (Some {| ls_items := items; ls_raises := false |}) username))
      = filter (fun f => Z.eqb (upload_timestamp f) t) (matching_files username items)).
Proof.
  simpl. split; [apply sort_desc_sorted | split; [apply sort_desc_perm |]].
  intros t. apply sort_desc_ties.
Qed.

(** X3: the user is matched by the end of the file name only, so the
    scans of a user whose name ends with [_<u2>] are listed for [u2] too. *)
Theorem list_user_scans_suffix_users (items : list file_version) (u1 u2 : string) :
  incl (fst (list_user_scans (Some {| ls_items := items; ls_raises := false |})
                             (u1 ++ "_" ++ u2)))
       (fst (list_user_scans (Some {| ls_items := items; ls_raises := false |}) u2)).
Proof.
  intros f Hin. cbn [list_user_scans ls_raises ls_items fst] in *.
  apply sorted_matching_files_In in Hin. destruct Hin as (v & p & Hv & Hf & Hp).
  apply sorted_matching_files_In. exists v, (p ++ "_" ++ u1)%string.
  split; [exact Hv | split; [exact Hf |]].
  rewrite Hp. now rewrite !string_app_assoc.
Qed.

Lemma list_user_scans_suffix_users_witness :
  In {| file_name := "scan_b_ivan.json"; file_id := "1";
        upload_timestamp := 5; file_size := 10 |}
     (fst (list_user_scans (Some listing_b_ivan) "ivan")).
Proof.
  apply (list_user_scans_suffix_users (ls_items listing_b_ivan) "b" "ivan").
  now left.
Defined.

(** ** format_size *)

Lemma round_hundredths_whole (n : Z) :
  (0 <= n)%Z -> round_hundredths n 0 = (n * 100)%Z.
Proof.
  intros Hn. unfold round_hundredths.
  change (1024 ^ Z.of_nat 0)%Z with 1%Z.
  rewrite Z.abs_eq by exact Hn.
  rewrite Z.div_1_r, Z.mod_1_r. reflexivity.
Qed.

(** X4: for a size between 0 and [2^53], the unit is B below 1024 bytes,
    KB below [1024^2], MB below [1024^3], GB below [1024^4] and TB from
    there on, the number shown being the size divided by 1024 once per
    step; a size below 1024 is shown as the integer itself with two
    zeros. *)
Theorem format_size_units (n : Z) :
  (0 <= n < 2 ^ 53)%Z ->
  ((n < 1024)%Z ->
     format_size (Some n) = (decimal n ++ ".00 B")%string) /\
  ((1024 <= n < 1024 ^ 2)%Z ->
     format_size (Some n) = (format_2f n 1 ++ " KB")%string) /\
  ((1024 ^ 2 <= n < 1024 ^ 3)%Z ->
     format_size (Some n) = (format_2f n 2 ++ " MB")%string) /\
  ((1024 ^ 3 <= n < 1024 ^ 4)%Z ->
     format_size (Some n) = (format_2f n 3 ++ " GB")%string) /\
  ((1024 ^ 4 <= n)%Z ->
     format_size (Some n) = (format_2f n 4 ++ " TB")%string).
Proof.
  intros Hn. unfold format_size, size_units. cbn [format_size_loop].
  change (1024 * 1024 ^ Z.of_nat 0)%Z with 1024%Z.
  change (1024 * 1024 ^ Z.of_nat 1)%Z with (1024 ^ 2)%Z.
  change (1024 * 1024 ^ Z.of_nat 2)%Z with (1024 ^ 3)%Z.
  change (1024 * 1024 ^ Z.of_nat 3)%Z with (1024 ^ 4)%Z.
  repeat split; intros Hr.
  - replace (Z.ltb n 1024) with true by (symmetry; apply Z.ltb_lt; lia).
    unfold format_2f. rewrite round_hundredths_whole by lia.
    replace (Z.ltb n 0) with false by (symmetry; apply Z.ltb_ge; lia).
    rewrite Z.div_mul by lia. rewrite Z.mod_mul by lia.
    change ("" ++ decimal n ++ "." ++ two_digits 0)%string
      with (decimal n ++ "." ++ "00")%string.
    now rewrite string_app_assoc.
  - replace (Z.ltb n 1024) with false by (symmetry; apply Z.ltb_ge; lia).
    replace (Z.ltb n (1024 ^ 2)) with true by (symmetry; apply Z.ltb_lt; lia).
    reflexivity.
  - replace (Z.ltb n 1024) with false by (symmetry; apply Z.ltb_ge; lia).
    replace (Z.ltb n (1024 ^ 2)) with false by (symmetry; apply Z.ltb_ge; lia).
    replace (Z.ltb n (1024 ^ 3)) with true by (symmetry; apply Z.ltb_lt; lia).
    reflexivity.
  - replace (Z.ltb n 1024) with false by (symmetry; apply Z.ltb_ge; lia).
    replace (Z.ltb n (1024 ^ 2)) with false by (symmetry; apply Z.ltb_ge; lia).
    replace (Z.ltb n (1024 ^ 3)) with false by (symmetry; apply Z.ltb_ge; lia).
    replace (Z.ltb n (1024 ^ 4)) with true by (symmetry; apply Z.ltb_lt; lia).
    reflexivity.
  - replace (Z.ltb n 1024) with false by (symmetry; apply Z.ltb_ge; lia).
    replace (Z.ltb n (1024 ^ 2)) with false by (symmetry; apply Z.ltb_ge; lia).
    replace (Z.ltb n (1024 ^ 3)) with false by (symmetry; apply Z.ltb_ge; lia).
    replace (Z.ltb n (1024 ^ 4)) with false by (symmetry; apply Z.ltb_ge; lia).
    reflexivity.
Qed.

Lemma format_size_units_witness :
  format_size (Some 512%Z) = "512.00 B" /\
  format_size (Some 1536%Z) = "1.50 KB" /\
  format_size (Some 1048575%Z) = "1024.00 KB".
Proof.
  destruct (format_size_units 512) as (HB & _); [lia |].
  destruct (format_size_units 1536) as (_ & HK & _); [lia |].
  destruct (format_size_units 1048575) as (_ & HK' & _); [lia |].
  split; [| split].
  - rewrite HB by lia. reflexivity.
  - rewrite HK by lia. reflexivity.
  - rewrite HK' by lia. reflexivity.
Defined.

(** X5: with the units KB, MB and GB the number shown is at least 1.00
    and at most 1024.00 (the rounding can reach 1024.00 without the unit
    changing). *)
Theorem format_size_range (n : Z) (k : nat) :
  (0 <= n < 2 ^ 53)%Z ->
  1 <= k <= 3 ->
  (1024 ^ Z.of_nat k <= n < 1024 * 1024 ^ Z.of_nat k)%Z ->
  exists h,
    (100 <= h <= 102400)%Z /\
    format_2f n k = (decimal (h / 100) ++ "." ++ two_digits (h mod 100))%string.
Proof.
  intros Hn Hk Hr.
  exists (round_hundredths n k). split.
  - unfold round_hundredths.
    set (d := (1024 ^ Z.of_nat k)%Z) in *.
    assert (Hd : (0 < d)%Z) by (apply Z.pow_pos_nonneg; lia).
    rewrite Z.abs_eq by lia.
    assert (Hq1 : (100 <= n * 100 / d)%Z).
    { apply Z.div_le_lower_bound; lia. }
    assert (Hq2 : (n * 100 / d < 102400)%Z).
    { apply Z.div_lt_upper_bound; lia. }
    destruct (Z.ltb d (2 * ((n * 100) mod d))); [lia |].
    destruct (Z.eqb d (2 * ((n * 100) mod d))); [| lia].
    destruct (Z.even (n * 100 / d)); lia.
  - unfold format_2f.
    replace (Z.ltb n 0) with false by (symmetry; apply Z.ltb_ge; lia).
    reflexivity.
Qed.

Lemma format_size_range_witness :
  exists h,
    (100 <= h <= 102400)%Z /\
    format_2f 1048575 1 = (decimal (h / 100) ++ "." ++ two_digits (h mod 100))%string.
Proof.
  apply (format_size_range 1048575 1); [lia | lia | vm_compute; split; [discriminate | reflexivity]].
Defined.

(** ** The section extraction, further *)

(** X6: the extraction raises exactly when the document is not a dict, or
    when its snapshot field holds a value that is true and not a dict (a
    string, a number, a non-empty list); an absent, null or empty snapshot
    is read as the empty dict. *)
Theorem extract_sections_raises (data : value) :
  extract_sections data = None <->
  (forall d, data <> VDict d) \/
  (exists d, data = VDict d /\
             truthy (dict_get d key_snapshot) = true /\
             is_dict (dict_get d key_snapshot) = false).
Proof.
  destruct data as [| b | z | f | s | l | d];
    try (split; [intros _; left; intros d' Hd'; discriminate Hd' | intros _; reflexivity]).
  assert (Hrun : extract_sections (VDict d) = None <->
                 py_get (py_or (dict_get d key_snapshot) (VDict [])) key_downloads = None).
  { unfold extract_sections. cbn [py_get bind].
    destruct (py_or (dict_get d key_snapshot) (VDict [])); cbn [py_get bind];
      split; intros E; try reflexivity; try discriminate E. }
  rewrite Hrun. unfold py_or. split.
  - intros E. right. exists d. split; [reflexivity |].
    destruct (truthy (dict_get d key_snapshot)); [| discriminate E].
    split; [reflexivity |].
    destruct (dict_get d key_snapshot); try reflexivity. discriminate E.
  - intros [Hno | (d' & Hd' & Ht & Hd)]; [now contradiction (Hno d) |].
    injection Hd' as <-. rewrite Ht.
    destruct (dict_get d key_snapshot); try reflexivity. discriminate Hd.
Qed.

(** ** The archive tree renderer, further *)

Lemma render_visits_dicts (visits : list (value * nat)) :
  Forall (fun visit => is_dict (fst visit) = true) visits ->
  forall ui,
  exists more,
    render_visits visits ui = Returned (ui ++ more) /\
    Forall2 (fun call visit => exists d, fst visit = VDict d /\
                                         call = render_entry d (snd visit))
            more visits.
Proof.
  induction 1 as [| [e level] visits He _ IH]; intros ui.
  - exists []. split; [now rewrite app_nil_r | constructor].
  - destruct e; try discriminate He.
    cbn [render_visits dict_items value_PyData].
    destruct (IH (ui ++ [render_entry d level])) as (more & E & Hmore).
    exists (render_entry d level :: more). split.
    + rewrite E. now rewrite <- app_assoc.
    + constructor; [now exists d | exact Hmore].
Qed.

Lemma render_visits_raises (visits : list (value * nat)) :
  forall ui,
    (exists ui', render_visits visits ui = Raised ui') <->
    Exists (fun visit => is_dict (fst visit) = false) visits.
Proof.
  induction visits as [| [e level] visits IH]; intros ui.
  - split; [intros (ui' & E); discriminate E | intros HE; inversion HE].
  - destruct e;
      try (split; [intros _; now constructor | intros _; now exists ui]).
    cbn [render_visits dict_items value_PyData]. rewrite IH. split.
    + intros HE. now apply Exists_cons_tl.
    + intros HE. inversion HE as [? ? Hd | ? ? Hd]; [discriminate Hd | exact Hd].
Qed.

Lemma display_archive_tree_visits (e : value) (es : list value) (fuel : nat) :
  List.length (preorder_forest 0 (e :: es)) <= fuel ->
  display_archive_tree fuel (VList (e :: es))
  = render_visits (preorder_forest 0 (e :: es)) [].
Proof.
  intros Hfuel. unfold display_archive_tree.
  cbn [list_items value_PyData]. rewrite map_rev.
  rewrite archive_loop_preorder; rewrite expand_children; [reflexivity | exact Hfuel].
Qed.

(** X7: on a listing all of whose entries, nested ones included, are
    dicts, the renderer returns, with one expander per entry, in
    pre-order, each at the depth of its entry. *)
Theorem display_archive_tree_all_dicts (e : value) (es : list value) (fuel : nat) :
  Forall (fun visit => is_dict (fst visit) = true) (preorder_forest 0 (e :: es)) ->
  List.length (preorder_forest 0 (e :: es)) <= fuel ->
  exists ui,
    display_archive_tree fuel (VList (e :: es)) = Returned ui /\
    List.length ui = List.length (preorder_forest 0 (e :: es)) /\
    Forall2 (fun call visit => exists d, fst visit = VDict d /\
                                         call = render_entry d (snd visit))
            ui (preorder_forest 0 (e :: es)).
Proof.
  intros Hd Hfuel. rewrite (display_archive_tree_visits e es fuel Hfuel).
  destruct (render_visits_dicts _ Hd []) as (more & E & Hmore).
  exists more. split; [exact E | split; [| exact Hmore]].
  clear -Hmore. induction Hmore; simpl; congruence.
Qed.

Lemma display_archive_tree_all_dicts_witness :
  exists ui,
    display_archive_tree 4 (VList [entry_A; entry_B]) = Returned ui /\
    List.length ui = 4.
Proof.
  destruct (display_archive_tree_all_dicts entry_A [entry_B] 4) as (ui & E & Hlen & _).
  - repeat constructor.
  - apply Nat.le_refl.
  - exists ui. split; [exact E | exact Hlen].
Defined.

(** X8: given fuel for every entry, the renderer raises exactly when the
    listing has an entry, at any depth under dict entries, that is not a
    dict. *)
Theorem display_archive_tree_raises (e : value) (es : list value) (fuel : nat) :
  List.length (preorder_forest 0 (e :: es)) <= fuel ->
  ((exists ui, display_archive_tree fuel (VList (e :: es)) = Raised ui) <->
   Exists (fun visit => is_dict (fst visit) = false) (preorder_forest 0 (e :: es))).
Proof.
  intros Hfuel. rewrite (display_archive_tree_visits e es fuel Hfuel).
  apply render_visits_raises.
Qed.

Lemma display_archive_tree_raises_witness :
  exists ui, display_archive_tree 5 (VList [entry_A; VStr "b.txt"]) = Raised ui.
Proof.
  apply (display_archive_tree_raises entry_A [VStr "b.txt"] 5).
  - vm_compute. lia.
  - apply Exists_exists. exists (VStr "b.txt", 0). split; [| reflexivity].
    vm_compute. do 3 right. now left.
Defined.




(** ** The archive part of a row's details *)

Lemma pop_None {A : Type} (stack : list A) : pop stack = None -> stack = [].
Proof.
  unfold pop. destruct (rev stack) as [| x r] eqn:E; [| discriminate].
  intros _. rewrite <- (rev_involutive stack), E. reflexivity.
Qed.

Lemma archive_loop_output {obj : Type} `{PyData obj} (fuel : nat) :
  forall (stack : list (obj * nat)) (ui ui' : list (st_call obj)),
    archive_loop fuel stack ui = Returned ui' ->
    exists more,
      ui' = ui ++ more /\ Forall is_expander more /\ (stack <> [] -> more <> []).
Proof.
  induction fuel as [| fuel IH]; intros stack ui ui' E.
  - simpl in E. destruct (pop stack) as [[stack' [e level]] |] eqn:Hpop; [discriminate E |].
    injection E as <-. exists []. rewrite app_nil_r.
    split; [reflexivity | split; [constructor |]].
    intros Hne. now contradiction Hne; apply pop_None.
  - simpl in E. destruct (pop stack) as [[stack' [e level]] |] eqn:Hpop.
    + destruct (dict_items e) as [d |]; [| discriminate E].
      destruct (IH _ _ _ E) as (more & -> & Hmore & _).
      exists (render_entry d level :: more).
      split; [now rewrite <- app_assoc |].
      split; [constructor; [exact I | exact Hmore] | discriminate].
    + injection E as <-. exists []. rewrite app_nil_r.
      split; [reflexivity | split; [constructor |]].
      intros Hne. now contradiction Hne; apply pop_None.
Qed.

Lemma display_archive_tree_no_content (fuel : nat) (e : value) (es : list value) :
  display_archive_tree fuel (VList (e :: es)) <> Returned [st_write "Нет Содержимого"].
Proof.
  unfold display_archive_tree. cbn [list_items value_PyData]. intros E.
  apply archive_loop_output in E. destruct E as (more & E & Hmore & _).
  simpl in E. subst more.
  inversion Hmore as [| ? ? Hcall _]. exact Hcall.
Qed.

(** X10: no section reaches the "no content" line of the renderer: where
    a section calls it, the record's archive field is true, or not of
    length 0, so the list it is given is never empty. *)
Theorem no_content_line_unreachable (heading : string) (fuel : nat)
    (file_rec : list (string * value)) :
  (forall o, show_archive_if_any heading fuel file_rec = Some (heading, o) ->
             o <> Returned [st_write "Нет Содержимого"]) /\
  (forall h o, show_desktop_archive fuel file_rec = desktop_tree h o ->
               o <> Returned [st_write "Нет Содержимого"]).
Proof.
  split.
  - intros o E. unfold show_archive_if_any in E.
    remember (dict_get file_rec key_archive_contents) as ac eqn:Hac. clear Hac.
    destruct (truthy ac) eqn:Ht; [| discriminate E].
    injection E as <-.
    destruct ac as [| b | z | f | s | [| e es] | d]; try (cbn; discriminate).
    apply display_archive_tree_no_content.
  - intros h o E. unfold show_desktop_archive in E.
    remember (dict_get file_rec key_archive_contents) as ac eqn:Hac. clear Hac.
    destruct (negb (is_nan ac)) eqn:Hn; [| discriminate E].
    injection E as _ <-.
    destruct ac as [| b | z | f | s | [| e es] | d]; try (cbn; discriminate).
    apply display_archive_tree_no_content.
Qed.

(** X11: in the desktop section a record whose archive field is not a
    list with at least one entry (absent, null, NaN, empty, or any other
    value) shows the "not an archive" warning, once: by the section
    itself or, for a value that is true and not a list, by the renderer. *)
Theorem desktop_archive_warning (fuel : nat) (file_rec : list (string * value)) :
  (forall e es, dict_get file_rec key_archive_contents <> VList (e :: es)) ->
  show_desktop_archive fuel file_rec = desktop_warning "Файл не является архивом." \/
  show_desktop_archive fuel file_rec
  = desktop_tree "**Содержимое Архива:**" (Returned [st_warning "Файл не является архивом."]).
Proof.
  intros Hno. unfold show_desktop_archive.
  destruct (dict_get file_rec key_archive_contents) as [| b | z | f | s | [| e es] | d];
    cbn [is_nan negb Nat.eqb List.length]; auto.
  - destruct (PrimFloat.is_nan f); auto.
  - now contradiction (Hno e es).
  - destruct d; auto.
Qed.

Lemma desktop_archive_warning_witness :
  show_desktop_archive 0 [(key_name, VStr "a.txt"); (key_archive_contents, VFloat nan)]
  = desktop_warning "Файл не является архивом." \/
  show_desktop_archive 0 [(key_name, VStr "a.txt"); (key_archive_contents, VFloat nan)]
  = desktop_tree "**Содержимое Архива:**" (Returned [st_warning "Файл не является архивом."]).
Proof.
  apply desktop_archive_warning. intros e es. discriminate.
Defined.

(** X12: in the downloads, temporary files and deleted files sections a
    record whose archive field is false (absent, null, an empty list)
    shows nothing, and one whose field is true and not a list (the NaN of
    a missing cell) shows the renderer's warning under the heading. *)
Theorem show_archive_if_any_cases (heading : string) (fuel : nat)
    (file_rec : list (string * value)) :
  (show_archive_if_any heading fuel file_rec = None <->
   truthy (dict_get file_rec key_archive_contents) = false) /\
  (truthy (dict_get file_rec key_archive_contents) = true ->
   (forall l, dict_get file_rec key_archive_contents <> VList l) ->
   show_archive_if_any heading fuel file_rec
   = Some (heading, Returned [st_warning "Файл не является архивом."])).
Proof.
  unfold show_archive_if_any. split.
  - destruct (truthy (dict_get file_rec key_archive_contents)); split;
      intros E; try reflexivity; discriminate E.
  - intros Ht Hno. rewrite Ht.
    destruct (dict_get file_rec key_archive_contents); try reflexivity.
    now contradiction (Hno l).
Qed.

Lemma show_archive_if_any_cases_witness :
  show_archive_if_any "Содержимое Архива:" 0 [(key_archive_contents, VFloat nan)]
  = Some ("Содержимое Архива:", Returned [st_warning "Файл не является архивом."]).
Proof.
  destruct (show_archive_if_any_cases "Содержимое Архива:" 0
              [(key_archive_contents, VFloat nan)]) as [_ Hwarn].
  apply Hwarn; [reflexivity | intros l; discriminate].
Defined.

(** ** The filter, further *)

Lemma select_by_length_le {A : Type} (mask : list bool) :
  forall l : list A, List.length (select_by mask l) <= List.length l.
Proof.
  induction mask as [| b mask IH]; intros [| x l]; simpl; try lia.
  destruct b; simpl; specialize (IH l); lia.
Qed.

Lemma select_by_length_eq {A B : Type} (mask : list bool) :
  forall (a : list A) (b : list B),
    List.length a = List.length b ->
    List.length (select_by mask a) = List.length (select_by mask b).
Proof.
  induction mask as [| x mask IH]; intros [| y a] [| z b] E; simpl;
    try reflexivity; try discriminate E.
  injection E as E. destruct x; simpl; now rewrite (IH a b E).
Qed.

Lemma select_by_all_true {A : Type} (l : list A) :
  select_by (repeat true (List.length l)) l = l.
Proof. induction l as [| x l IH]; simpl; [reflexivity | now rewrite IH]. Qed.

Lemma df_select_wf {cell : Type} (mask : list bool) (df : DataFrame cell) :
  df_wf df -> df_wf (df_select mask df).
Proof.
  unfold df_wf, df_select. cbn [df_index df_columns].
  intros Hwf. apply Forall_map. cbn [snd].
  eapply Forall_impl; [| exact Hwf].
  intros col Hcol. now apply select_by_length_eq.
Qed.

(** X13: the filter keeps the columns and their labels, keeps a table
    well formed, and returns rows of the table it is given, in their
    order and with their cells, none added. *)
Theorem quick_filter_df_shape {cell : Type} `{TextOps cell}
    (df : DataFrame cell) (q : string) :
  column_labels (quick_filter_df df q) = column_labels df /\
  (df_wf df -> df_wf (quick_filter_df df q)) /\
  (exists mask, df_rows (quick_filter_df df q) = select_by mask (df_rows df)) /\
  df_len (quick_filter_df df q) <= df_len df.
Proof.
  unfold quick_filter_df.
  destruct (String.eqb q "" || df_empty df).
  - split; [reflexivity | split; [auto | split; [| apply Nat.le_refl]]].
    exists (repeat true (List.length (df_rows df))). symmetry. apply select_by_all_true.
  - split; [| split; [| split]].
    + unfold column_labels, df_select. cbn [df_columns]. now rewrite map_map.
    + apply df_select_wf.
    + eexists. apply df_rows_select.
    + unfold df_len, df_select. cbn [df_index]. apply select_by_length_le.
Qed.

Lemma quick_filter_df_shape_witness :
  df_wf (quick_filter_df frame_ab "al").
Proof.
  destruct (quick_filter_df_shape frame_ab "al") as (_ & Hwf & _).
  apply Hwf. repeat constructor.
Defined.

(** ** The record normalizer, further *)

Lemma add_keys_NoDup {A : Type} (d : list (string * A)) :
  forall seen, NoDup seen -> NoDup (add_keys seen d).
Proof.
  unfold add_keys.
  induction d as [| [k v] d IH]; intros seen Hseen; [exact Hseen |].
  simpl. apply IH.
  destruct (existsb (String.eqb k) seen) eqn:E; [exact Hseen |].
  apply NoDup_app; [exact Hseen | repeat constructor; intros [] |].
  intros x Hx [<- | []].
  apply existsb_eqb_In in Hx. congruence.
Qed.

Lemma first_seen_keys_NoDup {A : Type} (records : list (list (string * A))) :
  NoDup (first_seen_keys records).
Proof.
  unfold first_seen_keys.
  assert (Hgen : forall seen, NoDup seen -> NoDup (fold_left add_keys records seen)).
  { induction records as [| d records IH]; intros seen Hseen; [exact Hseen |].
    simpl. apply IH. now apply add_keys_NoDup. }
  apply Hgen. constructor.
Qed.

Lemma filter_none {A : Type} (f : A -> bool) (l : list A) :
  (forall x, In x l -> f x = false) -> filter f l = [].
Proof.
  induction l as [| x l IH]; intros Hf; [reflexivity |].
  simpl. rewrite (Hf x) by now left.
  apply IH. intros y Hy. apply Hf. now right.
Qed.

Lemma filter_unique_label {cell : Type} (cols : list (string * list cell)) :
  NoDup (map fst cols) ->
  forall col cells,
    In (col, cells) cols ->
    filter (fun c => String.eqb (fst c) col) cols = [(col, cells)].
Proof.
  induction cols as [| [k v] cols IH]; intros Hnd col cells Hin; [destruct Hin |].
  simpl in Hnd. inversion Hnd as [| ? ? Hk Hnd']. subst.
  cbn [filter fst].
  destruct Hin as [[= -> ->] | Hin].
  - rewrite String.eqb_refl. f_equal.
    apply filter_none.
    intros [k v] Hin. cbn [fst].
    apply String.eqb_neq. intros ->.
    apply Hk. apply in_map_iff. now exists (col, v).
  - destruct (String.eqb k col) eqn:E.
    + apply String.eqb_eq in E. subst k. contradiction Hk.
      apply in_map_iff. now exists (col, cells).
    + now apply IH.
Qed.

(** X14: a table built from at least one entry (none of them a list) has
    no two columns with the same label, so every column can be read by
    its label as a series, with one cell per entry: the filter skips no
    column of such a table. *)
Theorem normalized_columns_readable (item : value) (items : list value)
    (default_columns : option (list string)) (df : DataFrame (option value)) :
  Forall (fun row => is_list row = false) (item :: items) ->
  df_from_list_of_dicts (item :: items) default_columns = Some df ->
  NoDup (column_labels df) /\
  (forall col, In col (column_labels df) ->
     exists cells,
       df_getitem df col = Some cells /\
       List.length cells = List.length (item :: items)).
Proof.
  intros Hrows E.
  rewrite (df_from_list_of_dicts_cons item items default_columns Hrows) in E.
  assert (Hlen : List.length (map row_record (item :: items)) = List.length (item :: items))
    by apply length_map.
  remember (map row_record (item :: items)) as records eqn:Hrec. clear Hrec.
  injection E as <-.
  assert (Hnd : NoDup (column_labels (DataFrame_of_records records))).
  { rewrite column_labels_of_records. apply first_seen_keys_NoDup. }
  split; [exact Hnd |].
  intros col Hcol. unfold column_labels in Hcol, Hnd.
  apply in_map_iff in Hcol. destruct Hcol as ([k cells] & Hk & Hin).
  cbn [fst] in Hk. subst k.
  exists cells. split.
  - unfold df_getitem. now rewrite (filter_unique_label _ Hnd col cells Hin).
  - pose proof (DataFrame_of_records_wf records) as Hwf.
    unfold df_wf in Hwf. rewrite Forall_forall in Hwf.
    specialize (Hwf _ Hin). cbn [snd] in Hwf. rewrite Hwf.
    unfold DataFrame_of_records. cbn [df_index].
    now rewrite length_seq.
Qed.

Lemma normalized_columns_readable_witness :
  exists cells,
    df_getitem {| df_index := [0; 1]; df_columns := [("PID", [None; Some (VInt 1)])] |} "PID"
    = Some cells /\ List.length cells = 2.
Proof.
  destruct (normalized_columns_readable VNone [VDict [("PID", VInt 1)]] None
              {| df_index := [0; 1]; df_columns := [("PID", [None; Some (VInt 1)])] |})
    as [_ Hread].
  - repeat constructor.
  - reflexivity.
  - apply Hread. now left.
Defined.

(** ** The table of modules *)






(** ** The details of a row *)

Lemma rows_of_length {cell : Type} (labels : list nat) :
  forall cols : list (list cell), List.length (rows_of labels cols) = List.length labels.
Proof.
  induction labels as [| i labels IH]; intros cols; [reflexivity |].
  simpl. now rewrite IH.
Qed.

Lemma rows_of_nth {cell : Type} (labels : list nat) :
  forall (cols : list (list cell)) (i : nat),
    i < List.length labels ->
    nth_error (rows_of labels cols) i
    = Some (nth i labels 0, map (fun col => nth_error col i) cols).
Proof.
  induction labels as [| l labels IH]; intros cols i Hi; [simpl in Hi; lia |].
  destruct i as [| i].
  - cbn [rows_of nth_error nth]. do 2 f_equal;
      try (apply map_ext; now intros [| x col]).
  - cbn [rows_of nth_error nth]. rewrite IH by (simpl in Hi; lia).
    rewrite map_map. do 2 f_equal.
    apply map_ext. intros [| x col]; [now destruct i | reflexivity].
Qed.

(** X16: the details of a row raise IndexError exactly for a position from
    the number of rows on; for a table that is not empty, every position
    that the row number input allows (0 to [max(0, len - 1)]) gives a
    record. *)
Theorem row_details_in_range (filtered : DataFrame (option value)) (idx : nat) :
  (row_to_dict filtered idx = None <-> df_len filtered <= idx) /\
  (df_empty filtered = false -> idx <= max_row_number filtered ->
   exists file_rec, row_to_dict filtered idx = Some file_rec).
Proof.
  assert (Hnone : row_to_dict filtered idx = None <-> df_len filtered <= idx).
  { unfold row_to_dict, df_len.
    destruct (nth_error (df_rows filtered) idx) as [[l cells] |] eqn:E.
    - split; [discriminate |]. intros Hle.
      assert (Hsome : nth_error (df_rows filtered) idx <> None) by congruence.
      apply nth_error_Some in Hsome. unfold df_rows in Hsome.
      rewrite rows_of_length in Hsome. lia.
    - split; [| reflexivity]. intros _.
      apply nth_error_None in E. unfold df_rows in E.
      now rewrite rows_of_length in E. }
  split; [exact Hnone |].
  intros Hne Hidx.
  assert (Hcases : (exists file_rec, row_to_dict filtered idx = Some file_rec) \/
                   row_to_dict filtered idx = None)
    by (destruct (row_to_dict filtered idx); eauto).
  destruct Hcases as [Hsome | E]; [exact Hsome |].
  exfalso. apply Hnone in E.
  unfold max_row_number in Hidx. unfold df_empty in Hne. unfold df_len in *.
  apply orb_false_iff in Hne. destruct Hne as [Hrows _].
  apply Nat.eqb_neq in Hrows. lia.
Qed.

Lemma row_details_in_range_witness :
  exists file_rec,
    row_to_dict {| df_index := [0; 1]; df_columns := [("PID", [None; Some (VInt 1)])] |} 1
    = Some file_rec.
Proof.
  destruct (row_details_in_range
              {| df_index := [0; 1]; df_columns := [("PID", [None; Some (VInt 1)])] |} 1)
    as [_ Hin].
  apply Hin; [reflexivity | vm_compute; lia].
Defined.

Lemma dict_set_fresh {A : Type} (d : list (string * A)) (k : string) (v : A) :
  ~ In k (keys d) -> dict_set d k v = d ++ [(k, v)].
Proof.
  induction d as [| [k' v'] d IH]; intros Hk; [reflexivity |].
  simpl. destruct (String.eqb k' k) eqn:E.
  - apply String.eqb_eq in E. subst k'. contradiction Hk. now left.
  - rewrite IH; [reflexivity |]. intros Hin. apply Hk. now right.
Qed.

Lemma dict_update_fresh {A : Type} (l : list (string * A)) :
  forall d, NoDup (keys d ++ keys l) -> dict_update d l = d ++ l.
Proof.
  unfold dict_update.
  induction l as [| [k v] l IH]; intros d Hnd; [now rewrite app_nil_r |].
  simpl. rewrite dict_set_fresh.
  - rewrite IH.
    + now rewrite <- app_assoc.
    + unfold keys in *. rewrite map_app, <- app_assoc. exact Hnd.
  - intros Hin. apply NoDup_remove_2 in Hnd. apply Hnd.
    apply in_or_app. now left.
Qed.

Lemma combine_map_self {A B : Type} (g : A -> B) (l : list A) :
  combine l (map g l) = map (fun x => (x, g x)) l.
Proof. induction l as [| x l IH]; simpl; [reflexivity | now rewrite IH]. Qed.

Lemma row_to_dict_of_records (item : value) (items : list value)
    (default_columns : option (list string)) (df : DataFrame (option value))
    (idx : nat) (row : value) :
  Forall (fun r => is_list r = false) (item :: items) ->
  df_from_list_of_dicts (item :: items) default_columns = Some df ->
  nth_error (item :: items) idx = Some row ->
  row_to_dict df idx
  = Some (map (fun k => (k, cell_value (dict_lookup (row_record row) k)))
              (column_labels df)).
Proof.
  intros Hrows E Hrow.
  rewrite (df_from_list_of_dicts_cons item items default_columns Hrows) in E.
  assert (Hrec : nth_error (map row_record (item :: items)) idx = Some (row_record row))
    by (now rewrite nth_error_map, Hrow).
  remember (map row_record (item :: items)) as records eqn:Hrecs. clear Hrecs.
  injection E as <-.
  assert (Hidx : idx < List.length records).
  { apply nth_error_Some. congruence. }
  unfold row_to_dict, df_rows.
  rewrite rows_of_nth by (unfold DataFrame_of_records; cbn [df_index]; now rewrite length_seq).
  rewrite column_labels_of_records.
  unfold DataFrame_of_records. cbn [df_columns].
  rewrite !map_map. cbn [snd].
  assert (Ecells : map (fun k => cell_value
                                   (join_cell
                                      (nth_error (map (fun d => dict_lookup d k) records) idx)))
                       (first_seen_keys records)
                   = map (fun k => cell_value (dict_lookup (row_record row) k))
                         (first_seen_keys records)).
  { apply map_ext. intros k. now rewrite nth_error_map, Hrec. }
  rewrite Ecells, combine_map_self.
  rewrite dict_update_fresh; [reflexivity |].
  unfold keys. cbn [map app]. rewrite map_map. cbn [fst]. rewrite map_id.
  apply first_seen_keys_NoDup.
Qed.

Lemma dict_lookup_In {A : Type} (d : list (string * A)) (k : string) (v : A) :
  dict_lookup d k = Some v -> In k (keys d).
Proof.
  induction d as [| [k' v'] d IH]; [discriminate |].
  simpl. destruct (String.eqb k' k) eqn:E.
  - intros _. left. now apply String.eqb_eq.
  - intros Hd. right. now apply IH.
Qed.

Lemma dict_lookup_map_keys {A : Type} (g : string -> A) (ks : list string) (k : string) :
  dict_lookup (map (fun k' => (k', g k')) ks) k
  = if existsb (String.eqb k) ks then Some (g k) else None.
Proof.
  induction ks as [| k' ks IH]; [reflexivity |].
  cbn [map dict_lookup existsb]. rewrite (String.eqb_sym k k').
  destruct (String.eqb k' k) eqn:E; [| exact IH].
  apply String.eqb_eq in E. now subst k'.
Qed.

(** X17: the details of row [idx] of a table built from entries (none of
    them a list) have the columns of the table as their keys, in order;
    a column that the flattened record of entry [idx] does not have reads
    NaN, and a text or a list of the record reads as it is in the
    record. *)
Theorem row_details_of_entry (item : value) (items : list value)
    (default_columns : option (list string)) (df : DataFrame (option value))
    (idx : nat) (row : value) :
  Forall (fun r => is_list r = false) (item :: items) ->
  df_from_list_of_dicts (item :: items) default_columns = Some df ->
  nth_error (item :: items) idx = Some row ->
  exists file_rec,
    row_to_dict df idx = Some file_rec /\
    keys file_rec = column_labels df /\
    (forall k, In k (column_labels df) ->
               dict_lookup (row_record row) k = None ->
               dict_lookup file_rec k = Some (VFloat nan)) /\
    (forall k s, dict_lookup (row_record row) k = Some (VStr s) ->
                 dict_lookup file_rec k = Some (VStr s)) /\
    (forall k l, dict_lookup (row_record row) k = Some (VList l) ->
                 dict_lookup file_rec k = Some (VList l)).
Proof.
  intros Hrows E Hrow.
  eexists. split; [exact (row_to_dict_of_records _ _ _ _ _ _ Hrows E Hrow) |].
  assert (Hcol : forall k v, dict_lookup (row_record row) k = Some v ->
                             existsb (String.eqb k) (column_labels df) = true).
  { intros k v Hk. apply existsb_eqb_In.
    rewrite (df_from_list_of_dicts_cons item items default_columns Hrows) in E.
    injection E as <-. rewrite column_labels_of_records.
    unfold first_seen_keys. apply in_first_seen_keys. right.
    exists (row_record row). split; [| now apply (dict_lookup_In _ _ v)].
    change (In (row_record row) (map row_record (item :: items))).
    apply in_map. now apply (nth_error_In _ idx). }
  split; [| split; [| split]].
  - unfold keys. rewrite map_map. cbn [fst]. apply map_id.
  - intros k Hin Hnone. rewrite dict_lookup_map_keys.
    apply existsb_eqb_In in Hin. now rewrite Hin, Hnone.
  - intros k s0 Hk. rewrite dict_lookup_map_keys.
    now rewrite (Hcol k _ Hk), Hk.
  - intros k l Hk. rewrite dict_lookup_map_keys.
    now rewrite (Hcol k _ Hk), Hk.
Qed.

Lemma row_details_of_entry_witness :
  exists file_rec,
    row_to_dict {| df_index := [0; 1]; df_columns := [("PID", [None; Some (VInt 1)])] |} 0
    = Some file_rec /\
    dict_lookup file_rec "PID" = Some (VFloat nan).
Proof.
  destruct (row_details_of_entry VNone [VDict [("PID", VInt 1)]] None
              {| df_index := [0; 1]; df_columns := [("PID", [None; Some (VInt 1)])] |}
              0 VNone) as (file_rec & E & _ & Hnan & _).
  - repeat constructor.
  - reflexivity.
  - reflexivity.
  - exists file_rec. split; [exact E |].
    apply Hnan; [now left | reflexivity].
Defined.

(** X18: in the downloads, temporary files and deleted files sections, for
    row [idx] of a table built from entries (none of them a list): when no
    entry has an archive field the row shows no archive part; when another
    entry has one and this one has not, the cell is NaN and the row shows
    the "not an archive" warning. *)
Theorem missing_archive_cell (heading : string) (fuel : nat)
    (item : value) (items : list value) (default_columns : option (list string))
    (df : DataFrame (option value)) (idx : nat) (row : value) :
  Forall (fun r => is_list r = false) (item :: items) ->
  df_from_list_of_dicts (item :: items) default_columns = Some df ->
  nth_error (item :: items) idx = Some row ->
  exists file_rec,
    row_to_dict df idx = Some file_rec /\
    (~ In key_archive_contents (column_labels df) ->
     show_archive_if_any heading fuel file_rec = None) /\
    (In key_archive_contents (column_labels df) ->
     dict_lookup (row_record row) key_archive_contents = None ->
     show_archive_if_any heading fuel file_rec
     = Some (heading, Returned [st_warning "Файл не является архивом."])).
Proof.
  intros Hrows E Hrow.
  eexists. split; [exact (row_to_dict_of_records _ _ _ _ _ _ Hrows E Hrow) |].
  unfold show_archive_if_any, dict_get. rewrite dict_lookup_map_keys.
  split.
  - intros Hno.
    destruct (existsb (String.eqb key_archive_contents) (column_labels df)) eqn:Ex;
      [| reflexivity].
    apply existsb_eqb_In in Ex. now contradiction Hno.
  - intros Hin Hnone.
    apply existsb_eqb_In in Hin. rewrite Hin, Hnone. reflexivity.
Qed.

Lemma missing_archive_cell_witness :
  exists file_rec,
    row_to_dict
      {| df_index := [0; 1];
         df_columns := [(key_archive_contents, [None; Some (VList [entry_B])])] |} 0
    = Some file_rec /\
    show_archive_if_any "Содержимое Архива:" 0 file_rec
    = Some ("Содержимое Архива:", Returned [st_warning "Файл не является архивом."]).
Proof.
  destruct (missing_archive_cell "Содержимое Архива:" 0
              (VDict []) [VDict [(key_archive_contents, VList [entry_B])]] None
              {| df_index := [0; 1];
                 df_columns := [(key_archive_contents, [None; Some (VList [entry_B])])] |}
              0 (VDict []))
    as (file_rec & E & _ & Hwarn).
  - repeat constructor.
  - reflexivity.
  - reflexivity.
  - exists file_rec. split; [exact E |].
    apply Hwarn; [now left | reflexivity].
Defined.

(** ** The session *)

Lemma on_submit_ok (username_input : string) (s : session) :
  session_ok s -> session_ok (on_submit username_input s).
Proof.
  intros Hs. unfold on_submit.
  destruct (String.eqb username_input (username s)); [exact Hs |].
  intros data Hd. discriminate Hd.
Qed.

Lemma on_view_files_ok (fmt : Z -> string) (files : list scan_file) (pos : nat)
    (click : bool) (data : option value) (s : session) :
  username s <> "" -> session_ok s ->
  session_ok (on_view_files fmt files pos click data s).
Proof.
  intros Hu Hs. unfold on_view_files.
  destruct (selected_real fmt files pos) as [real |]; [| exact Hs].
  set (s1 := match selected_file s with
             | Some name => if String.eqb real name then s else _
             | None => _
             end).
  assert (H1 : session_ok s1 /\ selected_file s1 <> None /\ username s1 = username s).
  { subst s1. destruct (selected_file s) as [name |] eqn:Hsel.
    - destruct (String.eqb real name).
      + split; [exact Hs | split; [congruence | reflexivity]].
      + split; [intros d Hd; discriminate Hd | split; [discriminate | reflexivity]].
    - split; [intros d Hd; discriminate Hd | split; [discriminate | reflexivity]]. }
  destruct H1 as (Hs1 & Hsel1 & Hu1).
  destruct click; [| exact Hs1].
  destruct data as [d |]; [| exact Hs1].
  destruct (truthy d) eqn:Ht; [| exact Hs1].
  intros d' Hd. cbn [scan_data selected_file username] in *.
  injection Hd as <-. rewrite Hu1. auto.
Qed.

Lemma read_radio_ok (section : string) (s : session) :
  session_ok s -> session_ok (read_radio section s).
Proof. intros Hs. unfold read_radio. destruct (has_scan s); exact Hs. Qed.

Lemma run_ok (fmt : Z -> string) (s : session) (r : script_run) :
  session_ok s -> session_ok (run fmt s r).
Proof.
  intros Hs. unfold run.
  pose proof (read_radio_ok (radio r) s Hs) as Hs0.
  destruct (show_setup (read_radio (radio r) s)); [| exact Hs0].
  destruct (submitted r) as [username_input |]; [now apply on_submit_ok |].
  destruct (String.eqb (username (read_radio (radio r) s)) "") eqn:Eu; [exact Hs0 |].
  destruct (Nat.eqb (List.length (user_files r)) 0); [exact Hs0 |].
  apply on_view_files_ok; [| exact Hs0].
  now apply String.eqb_neq.
Qed.

(** X19: after any sequence of runs from the initial session, a document
    is held only if it is a true value, a file is selected and the user
    name is not empty: changing the user or the file drops the document,
    and an empty document is never stored. *)
Theorem session_invariant (fmt : Z -> string) (runs : list script_run) :
  session_ok (fold_left (run fmt) runs init_session).
Proof.
  assert (Hgen : forall s, session_ok s -> session_ok (fold_left (run fmt) runs s)).
  { induction runs as [| r runs IH]; intros s Hs; [exact Hs |].
    simpl. apply IH. now apply run_ok. }
  apply Hgen. intros data Hd. discriminate Hd.
Qed.

Lemma session_invariant_witness :
  truthy (VDict [("Имя пользователя", VStr "ivan")]) = true /\
  selected_file (fold_left (run (fun _ => "t")) runs_load_ivan init_session) <> None /\
  username (fold_left (run (fun _ => "t")) runs_load_ivan init_session) <> "".
Proof.
  exact (session_invariant (fun _ => "t") runs_load_ivan
           (VDict [("Имя пользователя", VStr "ivan")]) eq_refl).
Defined.

Lemma index_of_first (x : string) (l : list string) :
  forall k, index_of x l = Some k ->
            nth_error l k = Some x /\ forall m, m < k -> nth_error l m <> Some x.
Proof.
  induction l as [| y l IH]; intros k E; [discriminate E |].
  cbn [index_of] in E. destruct (String.eqb y x) eqn:Eyx.
  - injection E as <-. apply String.eqb_eq in Eyx. subst y.
    split; [reflexivity | intros m Hm; lia].
  - destruct (index_of x l) as [k' |]; [| discriminate E].
    injection E as <-. destruct (IH k' eq_refl) as [Hk Hfirst].
    split; [exact Hk |].
    intros [| m] Hm; cbn [nth_error].
    + apply String.eqb_neq in Eyx. congruence.
    + apply Hfirst. lia.
Qed.

Lemma index_of_le (x : string) (l : list string) (pos : nat) :
  nth_error l pos = Some x -> exists k, index_of x l = Some k /\ k <= pos.
Proof.
  revert pos. induction l as [| y l IH]; intros [| pos] E; try discriminate E.
  - injection E as ->. cbn [index_of]. rewrite String.eqb_refl.
    exists 0. split; [reflexivity | lia].
  - cbn [index_of]. destruct (String.eqb y x).
    + exists 0. split; [reflexivity | lia].
    + destruct (IH pos E) as (k & -> & Hk). exists (S k). split; [reflexivity | lia].
Qed.

(** X20: the select box shows upload times, and the chosen time is looked
    up again in the list of times: the file taken is the first file with
    the time shown at the chosen position.  Of two files with the same
    shown time, the one listed later is never the one taken. *)
Theorem selected_real_first (fmt : Z -> string) (files : list scan_file)
    (pos : nat) (chosen : scan_file) :
  nth_error files pos = Some chosen ->
  exists k taken,
    selected_real fmt files pos = Some (file_name taken) /\
    nth_error files k = Some taken /\
    k <= pos /\
    fmt (upload_timestamp taken) = fmt (upload_timestamp chosen) /\
    (forall m earlier, m < k -> nth_error files m = Some earlier ->
        fmt (upload_timestamp earlier) <> fmt (upload_timestamp chosen)).
Proof.
  intros Hpos. unfold selected_real.
  rewrite nth_error_map, Hpos. cbn [option_map bind].
  destruct (index_of_le (fmt (upload_timestamp chosen))
              (map (fun f => fmt (upload_timestamp f)) files) pos) as (k & Ek & Hk).
  { now rewrite nth_error_map, Hpos. }
  rewrite Ek. cbn [bind].
  destruct (index_of_first _ _ k Ek) as [Hnth Hfirst].
  rewrite nth_error_map in Hnth.
  destruct (nth_error files k) as [taken |] eqn:Et; [| discriminate Hnth].
  injection Hnth as Hfmt.
  exists k, taken. rewrite nth_error_map, Et. cbn [option_map].
  split; [reflexivity | split; [reflexivity | split; [exact Hk | split; [exact Hfmt |]]]].
  intros m earlier Hm He Heq.
  apply (Hfirst m Hm). rewrite nth_error_map, He. cbn [option_map]. now rewrite Heq.
Qed.

Lemma selected_real_first_witness :
  exists k taken,
    selected_real (fun ts => "01.01.2025 10:00:00")
      [{| file_name := "a_ivan.json"; file_id := "1"; upload_timestamp := 2; file_size := 1 |};
       {| file_name := "b_ivan.json"; file_id := "2"; upload_timestamp := 1; file_size := 1 |}]
      1 = Some (file_name taken) /\ k <= 1.
Proof.
  destruct (selected_real_first (fun ts => "01.01.2025 10:00:00")
      [{| file_name := "a_ivan.json"; file_id := "1"; upload_timestamp := 2; file_size := 1 |};
       {| file_name := "b_ivan.json"; file_id := "2"; upload_timestamp := 1; file_size := 1 |}]
      1 _ eq_refl) as (k & taken & E & _ & Hk & _).
  exists k, taken. split; [exact E | exact Hk].
Defined.

(** ** The rows of the drivers table *)

Lemma dict_lookup_app {A : Type} (a b : list (string * A)) (k : string) :
  dict_lookup (a ++ b) k
  = match dict_lookup a k with
    | Some v => Some v
    | None => dict_lookup b k
    end.
Proof.
  induction a as [| [k' v] a IH]; [reflexivity |].
  simpl. destruct (String.eqb k' k); [reflexivity | exact IH].
Qed.

Lemma dict_lookup_without_keys (ks : list string) (d : list (string * value)) (k : string) :
  dict_lookup (without_keys ks d) k
  = if existsb (String.eqb k) ks then None else dict_lookup d k.
Proof.
  unfold without_keys.
  induction d as [| [k' v] d IH]; [simpl; now destruct (existsb _ ks) |].
  cbn [filter fst dict_lookup].
  destruct (String.eqb k' k) eqn:E.
  - apply String.eqb_eq in E. subst k'.
    destruct (existsb (String.eqb k) ks); cbn [negb]; [exact IH |].
    cbn [dict_lookup]. now rewrite String.eqb_refl.
  - destruct (existsb (String.eqb k') ks); cbn [negb]; [exact IH |].
    cbn [dict_lookup]. rewrite E. exact IH.
Qed.

Lemma without_keys_keys (ks : list string) (d : list (string * value)) :
  NoDup (keys d) ->
  NoDup (keys (without_keys ks d)) /\
  forall k, In k (keys (without_keys ks d)) -> ~ In k ks.
Proof.
  unfold without_keys, keys. intros Hnd. split.
  - induction d as [| [k v] d IH]; [constructor |].
    cbn [map fst] in Hnd. inversion Hnd as [| ? ? Hk Hnd']. subst.
    cbn [filter fst]. destruct (negb (existsb (String.eqb k) ks)); [| now apply IH].
    cbn [map fst]. constructor; [| now apply IH].
    intros Hin. apply Hk. apply in_map_iff in Hin. destruct Hin as (kv & Hkv & Hin).
    apply filter_In in Hin. apply in_map_iff. exists kv. tauto.
  - intros k Hin Hks.
    apply in_map_iff in Hin. destruct Hin as ([k' v] & Hk & Hin). cbn [fst] in Hk. subst k'.
    apply filter_In in Hin. destruct Hin as [_ Hf]. cbn [fst] in Hf.
    apply negb_true_iff in Hf.
    apply existsb_eqb_In in Hks. congruence.
Qed.

Lemma driver_row_layout (a b c : value) (items : list (string * value)) :
  NoDup (keys items) ->
  dict_update [("Имя", a); ("Путь", b); ("MD5", c)] (without_keys driver_keys items)
  = [("Имя", a); ("Путь", b); ("MD5", c)] ++ without_keys driver_keys items.
Proof.
  intros Hnd. apply dict_update_fresh.
  destruct (without_keys_keys driver_keys items Hnd) as [Hnd' Hdisj].
  change (keys [("Имя", a); ("Путь", b); ("MD5", c)]) with driver_keys.
  apply NoDup_app; [| exact Hnd' |].
  - unfold driver_keys. repeat constructor; simpl; intuition discriminate.
  - intros k Hk Hin. exact (Hdisj k Hin Hk).
Qed.

(** X21: the row made of a driver file of the folder has the fields
    [Имя], [Путь], [MD5] first and then the other fields of the record in
    their order, and reads like the record: every field has the value the
    record gives it, the three named fields being None when the record
    lacks them.  The row of a loaded driver differs in its name only,
    which is the base name of the path when the record has no name. *)
Theorem driver_rows_keep_fields (basename : string -> string)
    (items : list (string * value)) :
  NoDup (keys items) ->
  (exists row,
      driver_file_row (VDict items) = Some row /\
      keys row = driver_keys ++ keys (without_keys driver_keys items) /\
      forall k, dict_get row k = dict_get items k) /\
  (forall row,
      loaded_driver_row basename (VDict items) = Some row ->
      keys row = driver_keys ++ keys (without_keys driver_keys items) /\
      (forall k, k <> "Имя" -> dict_get row k = dict_get items k) /\
      (truthy (dict_get items "Имя") = true -> dict_get row "Имя" = dict_get items "Имя") /\
      (truthy (dict_get items "Имя") = false ->
       forall path, py_or (dict_get items "Путь") (VStr "") = VStr path ->
                    dict_get row "Имя" = VStr (basename path))).
Proof.
  intros Hnd.
  assert (Hget : forall a k,
             dict_get ([("Имя", a); ("Путь", dict_get items "Путь");
                        ("MD5", dict_get items "MD5")]
                         ++ without_keys driver_keys items) k
             = if String.eqb "Имя" k then a else dict_get items k).
  { intros a k. unfold dict_get at 1.
    rewrite dict_lookup_app. cbn [dict_lookup].
    destruct (String.eqb "Имя" k) eqn:E1; [reflexivity |].
    destruct (String.eqb "Путь" k) eqn:E2.
    { apply String.eqb_eq in E2. now subst k. }
    destruct (String.eqb "MD5" k) eqn:E3.
    { apply String.eqb_eq in E3. now subst k. }
    rewrite dict_lookup_without_keys.
    unfold driver_keys. cbn [existsb].
    rewrite (String.eqb_sym k "Имя"), (String.eqb_sym k "Путь"), (String.eqb_sym k "MD5").
    rewrite E1, E2, E3. reflexivity. }
  split.
  - eexists. split; [reflexivity |].
    rewrite (driver_row_layout _ _ _ items Hnd). split.
    + unfold keys. now rewrite map_app.
    + intros k. rewrite Hget.
      destruct (String.eqb "Имя" k) eqn:E; [| reflexivity].
      apply String.eqb_eq in E. now subst k.
  - intros row Hrow. cbn [loaded_driver_row] in Hrow.
    destruct (truthy (dict_get items "Имя")) eqn:Ht.
    + cbn [bind] in Hrow. injection Hrow as <-.
      rewrite (driver_row_layout _ _ _ items Hnd).
      split; [unfold keys; now rewrite map_app |].
      split; [| split].
      * intros k Hk. rewrite Hget.
        destruct (String.eqb "Имя" k) eqn:E; [| reflexivity].
        apply String.eqb_eq in E. congruence.
      * intros _. now rewrite Hget.
      * discriminate.
    + destruct (py_or (dict_get items "Путь") (VStr "")) as [| | | | path | |] eqn:Hp;
        try discriminate Hrow.
      cbn [bind] in Hrow. injection Hrow as <-.
      rewrite (driver_row_layout _ _ _ items Hnd).
      split; [unfold keys; now rewrite map_app |].
      split; [| split].
      * intros k Hk. rewrite Hget.
        destruct (String.eqb "Имя" k) eqn:E; [| reflexivity].
        apply String.eqb_eq in E. congruence.
      * discriminate.
      * intros _ path' [= <-]. now rewrite Hget.
Qed.

Lemma driver_rows_keep_fields_witness :
  exists row,
    driver_file_row (VDict [("MD5", VStr "ab"); ("Подпись", VBool true)]) = Some row /\
    dict_get row "Подпись" = VBool true.
Proof.
  destruct (driver_rows_keep_fields (fun p => p)
              [("MD5", VStr "ab"); ("Подпись", VBool true)]) as [(row & E & _ & Hget) _].
  - repeat constructor; simpl; intuition discriminate.
  - exists row. split; [exact E |]. now rewrite Hget.
Defined.

Lemma rows_from_length (row : value -> option (list (string * value))) (ds : list value) :
  forall rows, rows_from row ds = Some rows -> List.length rows = List.length ds.
Proof.
  induction ds as [| d ds IH]; intros rows E.
  - injection E as <-. reflexivity.
  - cbn [rows_from] in E.
    destruct (row d) as [r |]; [| discriminate E]. cbn [bind] in E.
    destruct (rows_from row ds) as [rs |]; [| discriminate E]. cbn [bind] in E.
    injection E as <-. simpl. now rewrite (IH rs eq_refl).
Qed.

Lemma rows_from_raises (row : value -> option (list (string * value))) (ds : list value) :
  rows_from row ds = None <-> Exists (fun d => row d = None) ds.
Proof.
  induction ds as [| d ds IH].
  - split; [discriminate | intros HE; inversion HE].
  - cbn [rows_from]. destruct (row d) as [r |] eqn:Er; cbn [bind].
    + destruct (rows_from row ds) as [rs |]; cbn [bind].
      * split; [discriminate |]. intros HE.
        inversion HE as [? ? Hd | ? ? Hds]; [congruence |].
        apply IH in Hds. discriminate Hds.
      * split; [intros _; apply Exists_cons_tl; now apply IH | reflexivity].
    + split; [intros _; now apply Exists_cons_hd | reflexivity].
Qed.

(** X22: the merged list has one record per entry of the three
    collections, and so has the drivers table built from it; the merge
    raises exactly when one of the entries gives no row: an entry that is
    not a dict, or a loaded driver without a name whose path is true and
    not a string. *)
Theorem combined_drivers_rows (basename : string -> string)
    (loaded dir_files services : list value) :
  (combined_drivers basename loaded dir_files services = None <->
   Exists (fun d => loaded_driver_row basename d = None) loaded \/
   Exists (fun d => is_dict d = false) (dir_files ++ services)) /\
  (forall rows,
      combined_drivers basename loaded dir_files services = Some rows ->
      List.length rows
      = List.length loaded + List.length dir_files + List.length services /\
      (rows <> [] ->
       exists df, df_from_list_of_dicts (map VDict rows) None = Some df /\
                  df_len df = List.length rows)).
Proof.
  assert (Hfile : forall d, driver_file_row d = None <-> is_dict d = false).
  { intros d. destruct d; split; intros E; try reflexivity; discriminate E. }
  assert (Hserv : forall d, driver_service_row d = None <-> is_dict d = false).
  { intros d. destruct d; split; intros E; try reflexivity; discriminate E. }
  unfold combined_drivers. split.
  - rewrite Exists_app.
    destruct (rows_from (loaded_driver_row basename) loaded) as [a |] eqn:Ea; cbn [bind].
    + assert (Hna : ~ Exists (fun d => loaded_driver_row basename d = None) loaded).
      { intros HE. apply rows_from_raises in HE. congruence. }
      destruct (rows_from driver_file_row dir_files) as [b |] eqn:Eb; cbn [bind].
      * assert (Hnb : ~ Exists (fun d => is_dict d = false) dir_files).
        { intros HE. assert (HE' : Exists (fun d => driver_file_row d = None) dir_files).
          { eapply Exists_impl; [| exact HE]. intros d. apply Hfile. }
          apply rows_from_raises in HE'. congruence. }
        destruct (rows_from driver_service_row services) as [c |] eqn:Ec; cbn [bind].
        -- split; [discriminate |]. intros [HE | [HE | HE]]; try tauto.
           assert (HE' : Exists (fun d => driver_service_row d = None) services).
           { eapply Exists_impl; [| exact HE]. intros d. apply Hserv. }
           apply rows_from_raises in HE'. congruence.
        -- split; [| reflexivity]. intros _. right. right.
           apply rows_from_raises in Ec.
           eapply Exists_impl; [| exact Ec]. intros d. apply Hserv.
      * split; [| reflexivity]. intros _. right. left.
        apply rows_from_raises in Eb.
        eapply Exists_impl; [| exact Eb]. intros d. apply Hfile.
    + split; [| reflexivity]. intros _. left. now apply rows_from_raises.
  - intros rows E.
    destruct (rows_from (loaded_driver_row basename) loaded) as [a |] eqn:Ea;
      [| discriminate E]. cbn [bind] in E.
    destruct (rows_from driver_file_row dir_files) as [b |] eqn:Eb;
      [| discriminate E]. cbn [bind] in E.
    destruct (rows_from driver_service_row services) as [c |] eqn:Ec;
      [| discriminate E]. cbn [bind] in E.
    injection E as <-.
    assert (Hlen : List.length (a ++ b ++ c)
                   = List.length loaded + List.length dir_files + List.length services).
    { rewrite !length_app.
      rewrite (rows_from_length _ _ _ Ea), (rows_from_length _ _ _ Eb),
        (rows_from_length _ _ _ Ec). lia. }
    split; [exact Hlen |].
    intros Hne. destruct (a ++ b ++ c) as [| r rows] eqn:Erows; [now contradiction Hne |].
    cbn [map]. rewrite df_from_list_of_dicts_cons.
    + eexists. split; [reflexivity |].
      unfold df_len, DataFrame_of_records. cbn [df_index].
      now rewrite length_seq, length_map, <- (length_map VDict (r :: rows)).
    + apply Forall_forall. intros row Hrow.
      change (In row (map VDict (r :: rows))) in Hrow.
      apply in_map_iff in Hrow. now destruct Hrow as (x & <- & _).
Qed.
